(** * Session lifecycle of the budget tracker front end

    A shallow embedding of the authentication layer of the application:

    - [src/context/AuthContext.tsx]: the [AuthProvider] state ([user],
      [token], [loading]) with [checkAuth], [login], [logout], the derived
      [isAuthenticated] and the [useAuth] hook;
    - [src/api/axios.ts]: the shared axios instance with its request and
      response interceptors;
    - [src/routes/PrivateRoute.tsx]: the route guard;
    - [src/types/index.ts]: [User], [LoginResponse], [LoginResult],
      [ApiError], [AuthContextType].

    JavaScript code with side effects is written in a small state and
    exception monad [JS] over a [World] that holds the React state of the
    provider, [localStorage], [window.location] and the console.  A call
    that is [await]ed runs to completion at the [await]: the three
    operations of the provider never overlap in the runs considered here. *)

From stdpp Require Import base strings gmap list pretty.
From Stdlib Require Import ZArith Ascii.

#[local] Set Warnings "-register-all".

Local Open Scope Z_scope.

(** ** JavaScript values *)

(** What [JSON.parse] can return, and what a variable of static type
    [User | null] can hold at run time, since
    [const parsedUser: User = JSON.parse(storedUser)] checks nothing.  A
    number is kept as the exact decimal [m * 10^e] of its literal. *)
Inductive JSValue : Type :=
| JNull
| JBool (b : bool)
| JNumber (m e : Z)
| JString (s : string)
| JArray (items : list JSValue)
| JObject (props : list (string * JSValue)).

(** A decimal literal denotes the double nearest to it; that double is zero
    exactly when the magnitude is at most half the least subnormal,
    [2^-1075]. *)
Definition number_is_zero (m e : Z) : bool :=
  if 0 <=? e then m =? 0
  else Z.abs m * 2 ^ 1075 <=? 10 ^ (- e).

(** [!!v]: every value is truthy but [null], [false], [0] and the empty
    string ([undefined] and [NaN] never come out of [JSON.parse]). *)
Definition truthy (v : JSValue) : bool :=
  match v with
  | JNull => false
  | JBool b => b
  | JNumber m e => negb (number_is_zero m e)
  | JString s => negb (String.eqb s "")
  | JArray _ => true
  | JObject _ => true
  end.

(** [!!s] for [s : string | null], as in [storedToken && storedUser] and
    [!!token]. *)
Definition truthy_string (s : option string) : bool :=
  match s with
  | Some s => negb (String.eqb s "")
  | None => false
  end.

(** ** [src/types/index.ts] *)

Record User : Type := mkUser {
  id : Z;
  username : string;
  email : string;
  first_name : string;
  last_name : string
}.

(** The object a [User] is at run time. *)
Definition User_value (u : User) : JSValue :=
  JObject [("id", JNumber (id u) 0);
           ("username", JString (username u));
           ("email", JString (email u));
           ("first_name", JString (first_name u));
           ("last_name", JString (last_name u))].

(** [LoginResponse]: [{ token: string; user: User }]. *)
Record LoginResponse : Type := mkLoginResponse {
  response_token : string;
  response_user : User
}.

(** [LoginResult]: [{ success: boolean; error?: string }]. *)
Record LoginResult : Type := mkLoginResult {
  success : bool;
  error : option string
}.

(** [ApiError]: [{ error?: string; [key: string]: string[] | string | undefined }]. *)
Record ApiError : Type := mkApiError {
  api_error : option string;
  api_fields : list (string * (string + list string))
}.

(** [AuthContextType], without its two functions. *)
Module AuthContextType.
Record t : Type := mk {
  user : JSValue;
  token : option string;
  loading : bool;
  isAuthenticated : bool
}.
End AuthContextType.

(** ** Errors and replies of axios *)

Record AxiosErrorResponse : Type := mkErrorResponse {
  status : Z;
  data : option ApiError
}.

(** [AxiosError<ApiError>]: [response] is set when the server answered with
    a status outside 2xx, [request] when the request was sent and no answer
    came, [message] is axios's own text. *)
Record AxiosError : Type := mkAxiosError {
  response : option AxiosErrorResponse;
  request : bool;
  message : string
}.

(** How the network settles one request. *)
Inductive Reply (T : Type) : Type :=
| Resolved (body : T)
| Rejected (err : AxiosError).
Arguments Resolved {T} body.
Arguments Rejected {T} err.

(** What a [throw] carries. *)
Inductive Exn : Type :=
| SyntaxError
| AxiosErr (err : AxiosError)
| Error (msg : string).

(** ** The world and the [JS] monad *)

(** The three [useState] cells of [AuthProvider]. *)
Record AuthState : Type := mkAuthState {
  user : JSValue;
  token : option string;
  loading : bool
}.

(** A request as it leaves the client. *)
Record Request : Type := mkRequest {
  url : string;
  payload : list (string * string);
  Authorization : option string
}.

Record World : Type := mkWorld {
  auth : AuthState;
  localStorage : gmap string string;
  pathname : string;
  (* targets assigned to [window.location.href], latest first *)
  navigations : list string;
  (* requests handed to the network, latest first *)
  sent : list Request;
  (* first argument of each [console.error], latest first *)
  console : list string
}.

Inductive Completion (A : Type) : Type :=
| Normal (a : A)
| Throw (e : Exn).
Arguments Normal {A} a.
Arguments Throw {A} e.

Definition JS (A : Type) : Type := World → Completion A * World.

#[global] Instance JS_ret : MRet JS := λ A a w, (Normal a, w).

#[global] Instance JS_bind : MBind JS := λ A B k m w,
  match m w with
  | (Normal a, w') => k a w'
  | (Throw e, w') => (Throw e, w')
  end.

Definition throw {A : Type} (e : Exn) : JS A := λ w, (Throw e, w).

(** [try { body } catch (error) { handler error } finally { final }]: the
    [finally] block runs last on every path; when it completes normally the
    completion of the [try]/[catch] part stands. *)
Definition try_catch_finally {A : Type}
    (body : JS A) (handler : Exn → JS A) (final : JS unit) : JS A := λ w,
  let r := match body w with
           | (Normal a, w1) => (Normal a, w1)
           | (Throw e, w1) => handler e w1
           end in
  match final (snd r) with
  | (Normal _, w2) => (fst r, w2)
  | (Throw e, w2) => (Throw e, w2)
  end.

(** [try { body } catch (error) { handler error }]. *)
Definition try_catch {A : Type} (body : JS A) (handler : Exn → JS A) : JS A :=
  try_catch_finally body handler (mret tt).

Definition completion {A : Type} (r : Completion A * World) : Completion A := fst r.
Definition world_after {A : Type} (r : Completion A * World) : World := snd r.

(** *** State setters of React *)

Definition setUser (v : JSValue) : JS unit := λ w,
  (Normal tt,
   mkWorld (mkAuthState v (token (auth w)) (loading (auth w)))
           (localStorage w) (pathname w) (navigations w) (sent w) (console w)).

Definition setToken (t : option string) : JS unit := λ w,
  (Normal tt,
   mkWorld (mkAuthState (user (auth w)) t (loading (auth w)))
           (localStorage w) (pathname w) (navigations w) (sent w) (console w)).

Definition setLoading (b : bool) : JS unit := λ w,
  (Normal tt,
   mkWorld (mkAuthState (user (auth w)) (token (auth w)) b)
           (localStorage w) (pathname w) (navigations w) (sent w) (console w)).

(** *** Browser objects *)

Definition localStorage_getItem (key : string) : JS (option string) := λ w,
  (Normal (localStorage w !! key), w).

Definition localStorage_setItem (key value : string) : JS unit := λ w,
  (Normal tt,
   mkWorld (auth w) (<[key := value]> (localStorage w))
           (pathname w) (navigations w) (sent w) (console w)).

Definition localStorage_removeItem (key : string) : JS unit := λ w,
  (Normal tt,
   mkWorld (auth w) (delete key (localStorage w))
           (pathname w) (navigations w) (sent w) (console w)).

Definition location_pathname : JS string := λ w, (Normal (pathname w), w).

(** [window.location.href = target]: the browser leaves for [target]. *)
Definition location_href_assign (target : string) : JS unit := λ w,
  (Normal tt,
   mkWorld (auth w) (localStorage w) target (target :: navigations w)
           (sent w) (console w)).

Definition console_error (line : string) : JS unit := λ w,
  (Normal tt,
   mkWorld (auth w) (localStorage w) (pathname w) (navigations w) (sent w)
           (line :: console w)).

Definition network_send (r : Request) : JS unit := λ w,
  (Normal tt,
   mkWorld (auth w) (localStorage w) (pathname w) (navigations w)
           (r :: sent w) (console w)).

(** [if (c) { m }]. *)
Definition when (c : bool) (m : JS unit) : JS unit :=
  if c then m else mret tt.

(** ** The JavaScript runtime *)

(** [JSON.parse] and [JSON.stringify] belong to the engine, not to the
    repository: the operations below are written against this interface and
    every general theorem holds for each implementation of it.
    [JSON_parse text = None] stands for a thrown [SyntaxError];
    [JSON_stringify] is used at the type of its one call site,
    [JSON.stringify(newUser)]. *)
Class Runtime : Type := {
  JSON_parse : string → option JSValue;
  JSON_stringify : User → string
}.

(** ** [src/api/axios.ts] *)

(** The request interceptor: [config.headers.Authorization = `Token ${token}`]
    when [localStorage] holds a truthy token. *)
Definition request_interceptor (config : Request) : JS Request :=
  token ← localStorage_getItem "token";
  if truthy_string token
  then mret (mkRequest (url config) (payload config)
                       (Some ("Token " +:+ default "" token)))
  else mret config.

(** The response interceptor, success handler: the response as it is. *)
Definition response_onFulfilled {T : Type} (response : T) : JS T :=
  mret response.

(** The response interceptor, error handler. *)
Definition response_onRejected {T : Type} (error : AxiosError) : JS T :=
  match response error with
  | Some error_response =>
      let status := status error_response in
      when (status =? 401)
        (localStorage_removeItem "token";;
         localStorage_removeItem "user";;
         path ← location_pathname;
         when (negb (String.eqb path "/login"))
           (location_href_assign "/login"));;
      when (status =? 403) (console_error "Permission denied");;
      when (status =? 404) (console_error "Resource not found");;
      when (status =? 500)
        (console_error "Server error. Please try again later.")
  | None =>
      if request error
      then console_error "Network error. Please check your connection."
      else console_error "Error:"
  end;;
  throw (AxiosErr error).

(** [api.post(url, data)]: the request goes through the request
    interceptor, the network settles it with [reply], and the settlement
    goes through the response interceptor.  [Resolved body] carries
    [response.data]. *)
Definition api_post {T : Type} (url : string) (data : list (string * string))
    (reply : Reply T) : JS T :=
  config ← request_interceptor (mkRequest url data None);
  network_send config;;
  match reply with
  | Resolved body => response_onFulfilled body
  | Rejected error => response_onRejected error
  end.

(** The error carries a response with HTTP status 401. *)
Definition is_unauthorized (error : AxiosError) : bool :=
  match response error with
  | Some error_response => status error_response =? 401
  | None => false
  end.

(** [localStorage] once [removeItem('token')] and [removeItem('user')] have
    run. *)
Definition without_session (storage : gmap string string) : gmap string string :=
  delete "user" (delete "token" storage).
Arguments without_session : simpl never.

(** ** [src/context/AuthContext.tsx] *)

(** [axiosError.response?.data?.error] for a caught value. *)
Definition response_data_error (error : Exn) : option string :=
  match error with
  | AxiosErr axiosError =>
      match response axiosError with
      | Some r => match data r with
                  | Some d => api_error d
                  | None => None
                  end
      | None => None
      end
  | SyntaxError | Error _ => None
  end.

(** [a || b] at type [string]. *)
Definition or_string (a : option string) (b : string) : string :=
  if truthy_string a then default "" a else b.

Definition login_failed : string := "Login failed. Please try again.".

Section AuthProvider.
Context `{Runtime}.

(** [JSON.parse(text)] as a computation; the argument goes through
    [ToString], so [null] is read as the text [null]. *)
Definition JSON_parse_call (text : option string) : JS JSValue :=
  match JSON_parse (default "null" text) with
  | Some v => mret v
  | None => throw SyntaxError
  end.

Definition checkAuth : JS unit :=
  try_catch_finally
    (storedToken ← localStorage_getItem "token";
     storedUser ← localStorage_getItem "user";
     when (truthy_string storedToken && truthy_string storedUser)
       (setToken storedToken;;
        parsedUser ← JSON_parse_call storedUser;
        setUser parsedUser))
    (λ error,
       console_error "Error checking auth:";;
       localStorage_removeItem "token";;
       localStorage_removeItem "user")
    (setLoading false).

Definition login (username password : string) (reply : Reply LoginResponse)
    : JS LoginResult :=
  try_catch
    (response_data ← api_post "/api/auth/login/"
                       [("username", username); ("password", password)] reply;
     let newToken := response_token response_data in
     let newUser := response_user response_data in
     localStorage_setItem "token" newToken;;
     localStorage_setItem "user" (JSON_stringify newUser);;
     setToken (Some newToken);;
     setUser (User_value newUser);;
     mret (mkLoginResult true None))
    (λ error,
       console_error "Login error:";;
       mret (mkLoginResult false
               (Some (or_string (response_data_error error) login_failed)))).

Definition logout (reply : Reply unit) : JS unit :=
  try_catch_finally
    (api_post "/api/auth/logout/" [] reply)
    (λ error, console_error "Logout error:")
    (setToken None;;
     setUser JNull;;
     localStorage_removeItem "token";;
     localStorage_removeItem "user").

End AuthProvider.

(** [const isAuthenticated = !!token && !!user]. *)
Definition isAuthenticated (s : AuthState) : bool :=
  truthy_string (token s) && truthy (user s).

(** A user is never held without a token. *)
Definition user_needs_token (s : AuthState) : Prop :=
  user s ≠ JNull → token s ≠ None.

(** The context value [AuthProvider] hands to its consumers. *)
Definition value (s : AuthState) : AuthContextType.t :=
  AuthContextType.mk (user s) (token s) (loading s) (isAuthenticated s).

(** [useAuth]: the context, or an error outside a provider. *)
Definition useAuth (context : option AuthContextType.t)
    : Exn + AuthContextType.t :=
  match context with
  | None => inl (Error "useAuth must be used within AuthProvider")
  | Some context => inr context
  end.

(** ** [src/routes/PrivateRoute.tsx] *)

(** What the guard renders: the "Checking authentication..." block, a
    [<Navigate to=... replace/>], or its children. *)
Inductive Element (C : Type) : Type :=
| CheckingAuthentication
| Navigate (to : string) (replace : bool)
| Fragment (children : C).
Arguments CheckingAuthentication {C}.
Arguments Navigate {C} to replace.
Arguments Fragment {C} children.

Definition PrivateRoute {C : Type} (context : option AuthContextType.t)
    (children : C) : Exn + Element C :=
  match useAuth context with
  | inl e => inl e
  | inr ctx =>
      if AuthContextType.loading ctx then inr CheckingAuthentication
      else if negb (AuthContextType.isAuthenticated ctx)
           then inr (Navigate "/login" true)
           else inr (Fragment children)
  end.

(** The session history of the browser, current entry first.  A rendered
    [Navigate] asks the router to go to [to]; with [replace] the router
    overwrites the current entry, without it a new entry is pushed. *)
Definition commit {C : Type} (e : Element C) (history : list string)
    : list string :=
  match e with
  | Navigate to replace =>
      if replace then to :: tail history else to :: history
  | CheckingAuthentication | Fragment _ => history
  end.

(** ** The life of one page *)

(** What the user does after the page has loaded. *)
Inductive Action : Type :=
| DoLogin (username password : string) (reply : Reply LoginResponse)
| DoLogout (reply : Reply unit).

(** The first render: [useState(null)], [useState(null)], [useState(true)]. *)
Definition initial (storage : gmap string string) (path : string) : World :=
  mkWorld (mkAuthState JNull None true) storage path [] [] [].

Section Page.
Context `{Runtime}.

Definition perform (a : Action) (w : World) : World :=
  match a with
  | DoLogin username password reply =>
      world_after (login username password reply w)
  | DoLogout reply => world_after (logout reply w)
  end.

(** The world after each action in turn. *)
Fixpoint snapshots (w : World) (actions : list Action) : list World :=
  match actions with
  | [] => []
  | a :: rest => perform a w :: snapshots (perform a w) rest
  end.

(** Every snapshot a consumer of the context can observe: the first
    render, the render after the mount effect [useEffect(() => checkAuth(), [])],
    then one per action. *)
Definition lifetime (storage : gmap string string) (path : string)
    (actions : list Action) : list World :=
  let mounted := world_after (checkAuth (initial storage path)) in
  initial storage path :: mounted :: snapshots mounted actions.

End Page.

(** How many times consecutive values differ. *)
Fixpoint changes (l : list bool) : nat :=
  match l with
  | a :: (b :: _) as rest => ((if Bool.eqb a b then 0 else 1) + changes rest)%nat
  | _ => 0%nat
  end.

(** ** A JSON engine for closed examples *)

(** An executable reading of the JSON grammar (RFC 8259), used where an
    example needs a concrete [Runtime].  Strings are byte strings; a
    [\uXXXX] escape is stored as the UTF-8 bytes of its code unit. *)
Module JSON.

Definition code (c : ascii) : N := N_of_ascii c.

Definition is_ws (c : ascii) : bool :=
  let n := code c in
  ((n =? 32) || (n =? 9) || (n =? 10) || (n =? 13))%N.

Definition is_digit (c : ascii) : bool :=
  let n := code c in ((48 <=? n) && (n <=? 57))%N.

Definition hex_value (c : ascii) : option N :=
  let n := code c in
  if ((48 <=? n) && (n <=? 57))%N then Some (n - 48)%N
  else if ((65 <=? n) && (n <=? 70))%N then Some (n - 55)%N
  else if ((97 <=? n) && (n <=? 102))%N then Some (n - 87)%N
  else None.

Definition byte (n : N) : ascii := ascii_of_N n.

Definition utf8 (n : N) : string :=
  if (n <? 128)%N then String (byte n) ""
  else if (n <? 2048)%N then
    String (byte (192 + n / 64)) (String (byte (128 + n mod 64)) "")
  else
    String (byte (224 + n / 4096))
      (String (byte (128 + (n / 64) mod 64))
         (String (byte (128 + n mod 64)) "")).

Fixpoint skip_ws (s : string) : string :=
  match s with
  | String c rest => if is_ws c then skip_ws rest else s
  | EmptyString => s
  end.

(** The decoded escape [\c], for the single-character escapes. *)
Definition unescape (c : ascii) : option ascii :=
  let n := code c in
  if (n =? 34)%N then Some (byte 34)
  else if (n =? 92)%N then Some (byte 92)
  else if (n =? 47)%N then Some (byte 47)
  else if (n =? 98)%N then Some (byte 8)
  else if (n =? 102)%N then Some (byte 12)
  else if (n =? 110)%N then Some (byte 10)
  else if (n =? 114)%N then Some (byte 13)
  else if (n =? 116)%N then Some (byte 9)
  else None.

(** The text after an opening quote: the decoded string and what follows
    the closing quote. *)
Fixpoint string_body (s : string) : option (string * string) :=
  match s with
  | EmptyString => None
  | String c rest =>
      if (code c =? 34)%N then Some ("", rest)
      else if (code c =? 92)%N then
        match rest with
        | String e rest1 =>
            if (code e =? 117)%N then
              match rest1 with
              | String h1 (String h2 (String h3 (String h4 rest2))) =>
                  match hex_value h1, hex_value h2, hex_value h3, hex_value h4 with
                  | Some a, Some b, Some c, Some d =>
                      match string_body rest2 with
                      | Some (text, after) =>
                          Some (utf8 (((a * 16 + b) * 16 + c) * 16 + d)%N +:+ text,
                                after)
                      | None => None
                      end
                  | _, _, _, _ => None
                  end
              | _ => None
              end
            else
              match unescape e, string_body rest1 with
              | Some ch, Some (text, after) => Some (String ch text, after)
              | _, _ => None
              end
        | EmptyString => None
        end
      else if (code c <? 32)%N then None
      else
        match string_body rest with
        | Some (text, after) => Some (String c text, after)
        | None => None
        end
  end.

(** Leading digits as a number, how many there were, and the rest. *)
Fixpoint digits (acc : Z) (count : Z) (s : string) : Z * Z * string :=
  match s with
  | String c rest =>
      if is_digit c
      then digits (10 * acc + Z.of_N (code c - 48)) (count + 1) rest
      else (acc, count, s)
  | EmptyString => (acc, count, s)
  end.

(** [-? int frac? exp?] with [int] either [0] or without a leading zero. *)
Definition number (s : string) : option (JSValue * string) :=
  let '(negative, s) :=
    match s with
    | String c rest => if (code c =? 45)%N then (true, rest) else (false, s)
    | EmptyString => (false, s)
    end in
  let int_part :=
    match s with
    | String c rest =>
        if (code c =? 48)%N then Some (0, rest)
        else if is_digit c then
          let '(n, _, after) := digits 0 0 s in Some (n, after)
        else None
    | EmptyString => None
    end in
  match int_part with
  | None => None
  | Some (n, s) =>
      let frac_part :=
        match s with
        | String c rest =>
            if (code c =? 46)%N then
              let '(m, k, after) := digits n 0 rest in
              if k =? 0 then None else Some (m, k, after)
            else Some (n, 0, s)
        | EmptyString => Some (n, 0, s)
        end in
      match frac_part with
      | None => None
      | Some (m, k, s) =>
          let m := if negative then - m else m in
          match s with
          | String c rest =>
              if ((code c =? 101) || (code c =? 69))%N then
                let '(minus, rest) :=
                  match rest with
                  | String sign rest' =>
                      if (code sign =? 45)%N then (true, rest')
                      else if (code sign =? 43)%N then (false, rest')
                      else (false, rest)
                  | EmptyString => (false, rest)
                  end in
                let '(x, count, after) := digits 0 0 rest in
                if count =? 0 then None
                else Some (JNumber m ((if minus then - x else x) - k), after)
              else Some (JNumber m (- k), s)
          | EmptyString => Some (JNumber m (- k), s)
          end
      end
  end.

(** [word] at the head of [s]: what follows it. *)
Fixpoint keyword (word s : string) : option string :=
  match word, s with
  | EmptyString, _ => Some s
  | String a word', String b s' =>
      if Ascii.eqb a b then keyword word' s' else None
  | String _ _, EmptyString => None
  end.

Fixpoint value (fuel : nat) (s : string) : option (JSValue * string) :=
  match fuel with
  | O => None
  | S fuel =>
      match skip_ws s with
      | EmptyString => None
      | String c rest =>
          if (code c =? 123)%N then
            match skip_ws rest with
            | String c' rest' =>
                if (code c' =? 125)%N then Some (JObject [], rest')
                else members fuel [] rest
            | EmptyString => None
            end
          else if (code c =? 91)%N then
            match skip_ws rest with
            | String c' rest' =>
                if (code c' =? 93)%N then Some (JArray [], rest')
                else elements fuel [] rest
            | EmptyString => None
            end
          else if (code c =? 34)%N then
            match string_body rest with
            | Some (text, after) => Some (JString text, after)
            | None => None
            end
          else if (code c =? 116)%N then
            option_map (pair (JBool true)) (keyword "true" (String c rest))
          else if (code c =? 102)%N then
            option_map (pair (JBool false)) (keyword "false" (String c rest))
          else if (code c =? 110)%N then
            option_map (pair JNull) (keyword "null" (String c rest))
          else number (String c rest)
      end
  end
with elements (fuel : nat) (seen : list JSValue) (s : string)
    : option (JSValue * string) :=
  match fuel with
  | O => None
  | S fuel =>
      match value fuel s with
      | Some (v, after) =>
          match skip_ws after with
          | String c rest =>
              if (code c =? 44)%N then elements fuel (v :: seen) rest
              else if (code c =? 93)%N
                   then Some (JArray (rev (v :: seen)), rest)
                   else None
          | EmptyString => None
          end
      | None => None
      end
  end
with members (fuel : nat) (seen : list (string * JSValue)) (s : string)
    : option (JSValue * string) :=
  match fuel with
  | O => None
  | S fuel =>
      match skip_ws s with
      | String q rest =>
          if (code q =? 34)%N then
            match string_body rest with
            | Some (key, after) =>
                match skip_ws after with
                | String colon rest1 =>
                    if (code colon =? 58)%N then
                      match value fuel rest1 with
                      | Some (v, after1) =>
                          match skip_ws after1 with
                          | String c rest2 =>
                              if (code c =? 44)%N
                              then members fuel ((key, v) :: seen) rest2
                              else if (code c =? 125)%N
                                   then Some (JObject (rev ((key, v) :: seen)), rest2)
                                   else None
                          | EmptyString => None
                          end
                      | None => None
                      end
                    else None
                | EmptyString => None
                end
            | None => None
            end
          else None
      | EmptyString => None
      end
  end.

(** [JSON.parse(text)]: one value between optional white space; [None] is
    a [SyntaxError]. *)
Definition parse (text : string) : option JSValue :=
  match value (2 * String.length text + 2) text with
  | Some (v, after) =>
      match skip_ws after with
      | EmptyString => Some v
      | String _ _ => None
      end
  | None => None
  end.

Definition hex_digit (n : N) : ascii :=
  if (n <? 10)%N then byte (48 + n) else byte (87 + n).

(** The text of a string between its quotes. *)
Fixpoint escape (s : string) : string :=
  match s with
  | EmptyString => ""
  | String c rest =>
      let n := code c in
      (if (n =? 34)%N then String (byte 92) (String (byte 34) "")
       else if (n =? 92)%N then String (byte 92) (String (byte 92) "")
       else if (n =? 8)%N then String (byte 92) "b"
       else if (n =? 12)%N then String (byte 92) "f"
       else if (n =? 10)%N then String (byte 92) "n"
       else if (n =? 13)%N then String (byte 92) "r"
       else if (n =? 9)%N then String (byte 92) "t"
       else if (n <? 32)%N then
         String (byte 92)
           ("u00" +:+ String (hex_digit (n / 16)) (String (hex_digit (n mod 16)) ""))
       else String c "") +:+ escape rest
  end.

Definition quote (s : string) : string :=
  String (byte 34) (escape s) +:+ String (byte 34) "".

(** [JSON.stringify] of an object with the five properties of [User], in
    the order of the interface. *)
Definition stringify (u : User) : string :=
  "{" +:+ quote "id" +:+ ":" +:+ pretty (id u)
  +:+ "," +:+ quote "username" +:+ ":" +:+ quote (username u)
  +:+ "," +:+ quote "email" +:+ ":" +:+ quote (email u)
  +:+ "," +:+ quote "first_name" +:+ ":" +:+ quote (first_name u)
  +:+ "," +:+ quote "last_name" +:+ ":" +:+ quote (last_name u)
  +:+ "}".

End JSON.

Definition engine : Runtime :=
  {| JSON_parse := JSON.parse; JSON_stringify := JSON.stringify |}.

(** *** Data of the examples *)

Definition testuser : User :=
  mkUser 1 "testuser" "test@example.com" "Test" "User".

(** A cache whose user entry is not JSON. *)
Definition unparsable_cache : gmap string string :=
  <["token" := "abc"]> (<["user" := "{bad"]> ∅).

(** A cache that holds a user entry and no token. *)
Definition orphan_user_cache : gmap string string :=
  <["user" := JSON.stringify testuser]> ∅.

(** The login page once mounted over an empty cache. *)
Definition login_page : World :=
  world_after (@checkAuth engine (initial ∅ "/login")).

(** The login page once mounted over a cache that holds a token and no
    user. *)
Definition stale_login_page : World :=
  world_after (@checkAuth engine (initial (<["token" := "stale"]> ∅) "/login")).

(** The server refuses the credentials with status 401. *)
Definition invalid_credentials : AxiosError :=
  mkAxiosError
    (Some (mkErrorResponse 401
             (Some (mkApiError (Some "Invalid credentials") []))))
    true "Request failed with status code 401".

(** A page on [/dashboard] that holds a session. *)
Definition dashboard : World :=
  mkWorld (mkAuthState (User_value testuser) (Some "abc") false)
          (<["token" := "abc"]> (<["user" := JSON.stringify testuser]> ∅))
          "/dashboard" [] [] [].

(** The [Authorization] header the request interceptor derives from a
    cache: [Token t] for a non-empty cached token [t], none otherwise. *)
Definition Authorization_for (storage : gmap string string) : option string :=
  match storage !! "token" with
  | Some t => if String.eqb t "" then None else Some ("Token " +:+ t)
  | None => None
  end.

(** The line the response interceptor writes to the console for an
    error, if any. *)
Definition interceptor_lines (error : AxiosError) : list string :=
  match response error with
  | Some error_response =>
      if status error_response =? 403 then ["Permission denied"]
      else if status error_response =? 404 then ["Resource not found"]
      else if status error_response =? 500
           then ["Server error. Please try again later."]
           else []
  | None =>
      if request error
      then ["Network error. Please check your connection."]
      else ["Error:"]
  end.

(** * The callers of the provider *)

(** ** [src/App.tsx] *)

(** The pages behind the routes. *)
Inductive Page : Type :=
| Login
| Dashboard
| Transactions
| Budget.

(** The [<Route>] that [<Routes>] has matched for the current location, in
    the order of the table; [RouteOther] is [path="*"].  Which route a
    location matches is the router's decision and an input here. *)
Inductive Route : Type :=
| RouteLogin
| RouteDashboard
| RouteProfile
| RouteTransactions
| RouteBudget
| RouteRoot
| RouteOther.

(** What [App] returns: the progress circle shown while [loading], or the
    element of the matched route. *)
Inductive AppElement : Type :=
| Authenticating
| Routed (element : Element Page).

Definition routed (r : Exn + Element Page) : Exn + AppElement :=
  match r with
  | inl e => inl e
  | inr element => inr (Routed element)
  end.

Definition App (context : option AuthContextType.t) (route : Route)
    : Exn + AppElement :=
  match useAuth context with
  | inl e => inl e
  | inr ctx =>
      if AuthContextType.loading ctx then inr Authenticating
      else
        match route with
        | RouteLogin =>
            inr (Routed (if AuthContextType.isAuthenticated ctx
                         then Navigate "/dashboard" true
                         else Fragment Login))
        | RouteDashboard => routed (PrivateRoute context Dashboard)
        | RouteProfile => routed (PrivateRoute context Dashboard)
        | RouteTransactions => routed (PrivateRoute context Transactions)
        | RouteBudget => routed (PrivateRoute context Budget)
        | RouteRoot => routed (PrivateRoute context Dashboard)
        | RouteOther => inr (Routed (Navigate "/" true))
        end
  end.

(** The route whose [path] is literally [to].  Only the paths of the table
    are decided: for any other location the match is left to the router. *)
Definition route_of_literal (to : string) : option Route :=
  if String.eqb to "/login" then Some RouteLogin
  else if String.eqb to "/dashboard" then Some RouteDashboard
  else if String.eqb to "/profile" then Some RouteProfile
  else if String.eqb to "/transactions" then Some RouteTransactions
  else if String.eqb to "/budget" then Some RouteBudget
  else if String.eqb to "/" then Some RouteRoot
  else None.

(** Where the application comes to rest. *)
Inductive Rest : Type :=
| Shows (page : Page)
| ShowsProgress
| ShowsChecking
| Fails (e : Exn)
| Unsettled.

(** Renders [App] at [route] and follows each [Navigate] it returns, at
    most [redirects] times, under one and the same context. *)
Fixpoint settle (redirects : nat) (context : option AuthContextType.t)
    (route : Route) : Rest :=
  match App context route with
  | inl e => Fails e
  | inr Authenticating => ShowsProgress
  | inr (Routed CheckingAuthentication) => ShowsChecking
  | inr (Routed (Fragment page)) => Shows page
  | inr (Routed (Navigate to _)) =>
      match redirects, route_of_literal to with
      | S redirects, Some next => settle redirects context next
      | _, _ => Unsettled
      end
  end.

(** ** The browser around the provider *)

(** A toast of antd's [message]. *)
Inductive Toast : Type :=
| message_success (content : string)
| message_error (content : string)
| message_warning (content : string).

(** The window with what the router and antd keep: the history entries
    behind the current one (latest first; the current entry is
    [pathname]) and the toasts shown (latest first). *)
Record Browser : Type := mkBrowser {
  window : World;
  earlier : list string;
  toasts : list Toast
}.

Definition entries (b : Browser) : list string :=
  pathname (window b) :: earlier b.

Definition with_pathname (to : string) (w : World) : World :=
  mkWorld (auth w) (localStorage w) to (navigations w) (sent w) (console w).

(** [navigate(to, { replace })] of [useNavigate]. *)
Definition navigate (to : string) (replace : bool) (b : Browser) : Browser :=
  mkBrowser (with_pathname to (window b))
            (if replace then earlier b else pathname (window b) :: earlier b)
            (toasts b).

Definition show (t : Toast) (b : Browser) : Browser :=
  mkBrowser (window b) (earlier b) (t :: toasts b).

Definition with_window (w : World) (b : Browser) : Browser :=
  mkBrowser w (earlier b) (toasts b).

(** A page load over what [w] leaves behind: a new provider mounts over
    the same [localStorage] at the same location and runs [checkAuth]. *)
Definition reload `{Runtime} (w : World) : World :=
  world_after (checkAuth (initial (localStorage w) (pathname w))).

(** ** [src/pages/Login/Login.tsx] *)

Module LoginPage.

Record LoginFormValues : Type := mkValues {
  username : string;
  password : string
}.

(** The component: its [loading] state and the browser it runs in. *)
Record State : Type := mkState {
  loading : bool;
  browser : Browser
}.

Definition setLoading (flag : bool) (s : State) : State :=
  mkState flag (browser s).

Definition on_browser (f : Browser → Browser) (s : State) : State :=
  mkState (loading s) (f (browser s)).

Definition unexpected : string :=
  "An unexpected error occurred. Please try again.".

Section Handlers.
Context `{Runtime}.

Definition handleSubmit (values : LoginFormValues) (reply : Reply LoginResponse)
    (s : State) : State :=
  (* try *)
  let s := setLoading true s in
  let r := login (username values) (password values) reply
             (window (browser s)) in
  let s := on_browser (with_window (world_after r)) s in
  let s :=
    match completion r with
    | Normal result =>
        if success result then
          on_browser
            (λ b, navigate "/dashboard" true
                    (show (message_success "Login successful! Welcome back.") b))
            s
        else
          on_browser
            (show (message_error
                     (or_string (error result) "Login failed. Please try again.")))
            s
    | Throw _ =>
        (* catch *)
        on_browser
          (λ b, show (message_error unexpected)
                  (with_window
                     (world_after (console_error "Login error:" (window b))) b))
          s
    end in
  (* finally *)
  setLoading false s.

Definition handleSubmitFailed (s : State) : State :=
  on_browser (show (message_warning "Please fill in all required fields.")) s.

End Handlers.

End LoginPage.

(** ** [src/components/layout/DashboardLayout.tsx] *)

(** [handleLogout]: [await logout(); navigate('/login')]. *)
Definition handleLogout `{Runtime} (reply : Reply unit) (b : Browser)
    : Completion unit * Browser :=
  let r := logout reply (window b) in
  match completion r with
  | Normal _ => (Normal tt, navigate "/login" false (with_window (world_after r) b))
  | Throw e => (Throw e, with_window (world_after r) b)
  end.

(** *** More data of the examples *)

(** The login form open in a browser that came from [/]. *)
Definition login_form : LoginPage.State :=
  LoginPage.mkState false (mkBrowser login_page ["/"] []).

(** * Properties *)

(** Unfolds the operations of [JS] down to functions on worlds. *)
Ltac js_unfold :=
  unfold try_catch, try_catch_finally, when, throw,
    world_after, completion,
    setUser, setToken, setLoading,
    localStorage_getItem, localStorage_setItem, localStorage_removeItem,
    location_pathname, location_href_assign, console_error, network_send,
    mbind, mret, JS_bind, JS_ret in *.

(** Runs a computation symbolically, splitting on every test it meets. *)
Ltac js_run :=
  js_unfold; cbn; repeat (case_match; cbn in *; simplify_eq); try done.

(** ** Laws of [JS] used below *)

Lemma run_pair {A : Type} (r : Completion A * World) :
  r = (completion r, world_after r).
Proof. by destruct r. Qed.

Lemma bind_normal {A B : Type} (m : JS A) (k : A → JS B) (w w1 : World) (a : A) :
  m w = (Normal a, w1) → (m ≫= k) w = k a w1.
Proof. intros Hm. unfold mbind, JS_bind. by rewrite Hm. Qed.

Lemma bind_throw {A B : Type} (m : JS A) (k : A → JS B) (w w1 : World) (e : Exn) :
  m w = (Throw e, w1) → (m ≫= k) w = (Throw e, w1).
Proof. intros Hm. unfold mbind, JS_bind. by rewrite Hm. Qed.

Lemma try_catch_normal {A : Type} (body : JS A) (handler : Exn → JS A)
    (w w1 : World) (a : A) :
  body w = (Normal a, w1) → try_catch body handler w = (Normal a, w1).
Proof.
  intros Hbody. unfold try_catch, try_catch_finally. by rewrite Hbody.
Qed.

Lemma try_catch_throw {A : Type} (body : JS A) (handler : Exn → JS A)
    (w w1 : World) (e : Exn) :
  body w = (Throw e, w1) → try_catch body handler w = handler e w1.
Proof.
  intros Hbody. unfold try_catch, try_catch_finally. rewrite Hbody.
  cbn. by destruct (handler e w1).
Qed.

(** Whatever the [try] and [catch] parts do, a [finally] block that
    completes normally has the last word on the world. *)
Lemma try_catch_finally_normal {A : Type} (body : JS A) (handler : Exn → JS A)
    (final : JS unit) (w w1 : World) (a : A) :
  body w = (Normal a, w1) →
  try_catch_finally body handler final w =
  match final w1 with
  | (Normal _, w2) => (Normal a, w2)
  | (Throw e, w2) => (Throw e, w2)
  end.
Proof.
  intros Hbody. unfold try_catch_finally. by rewrite Hbody.
Qed.

Lemma try_catch_finally_throw {A : Type} (body : JS A) (handler : Exn → JS A)
    (final : JS unit) (w w1 : World) (e : Exn) :
  body w = (Throw e, w1) →
  try_catch_finally body handler final w =
  match final (world_after (handler e w1)) with
  | (Normal _, w2) => (completion (handler e w1), w2)
  | (Throw e', w2) => (Throw e', w2)
  end.
Proof.
  intros Hbody. unfold try_catch_finally. by rewrite Hbody.
Qed.

(** ** The two entries of the session cache *)

Lemma without_session_token (storage : gmap string string) :
  without_session storage !! "token" = None.
Proof.
  unfold without_session.
  rewrite lookup_delete_ne; [apply lookup_delete_eq | done].
Qed.

Lemma without_session_user (storage : gmap string string) :
  without_session storage !! "user" = None.
Proof. unfold without_session. apply lookup_delete_eq. Qed.

Lemma without_session_other (storage : gmap string string) (key : string) :
  key ≠ "token" → key ≠ "user" → without_session storage !! key = storage !! key.
Proof.
  intros Htoken Huser. unfold without_session.
  rewrite !lookup_delete_ne; done.
Qed.

Lemma without_session_idemp (storage : gmap string string) :
  without_session (without_session storage) = without_session storage.
Proof.
  apply map_eq; intros key.
  destruct (decide (key = "token")) as [->|Htoken].
  { by rewrite !without_session_token. }
  destruct (decide (key = "user")) as [->|Huser].
  { by rewrite !without_session_user. }
  by rewrite !without_session_other.
Qed.

Lemma truthy_string_Some (s : option string) :
  truthy_string s = true → ∃ text, s = Some text ∧ text ≠ "".
Proof.
  destruct s as [text|]; [|done]. cbn.
  intros Hne. exists text; split; [done|].
  intros ->. done.
Qed.

Lemma isAuthenticated_without_user (storedToken : option string) (flag : bool) :
  isAuthenticated (mkAuthState JNull storedToken flag) = false.
Proof. unfold isAuthenticated. cbn. apply andb_false_r. Qed.

(** ** The response interceptor *)

Lemma response_onRejected_rejects (T : Type) (error : AxiosError) (w : World) :
  completion (@response_onRejected T error w) = Throw (AxiosErr error).
Proof. unfold response_onRejected. js_run. Qed.

Lemma response_onRejected_auth (T : Type) (error : AxiosError) (w : World) :
  auth (world_after (@response_onRejected T error w)) = auth w.
Proof. unfold response_onRejected. js_run. Qed.

Lemma response_onRejected_storage (T : Type) (error : AxiosError) (w : World) :
  localStorage (world_after (@response_onRejected T error w)) =
  if is_unauthorized error then without_session (localStorage w)
  else localStorage w.
Proof. unfold response_onRejected, is_unauthorized. js_run. Qed.

Lemma response_onRejected_location (T : Type) (error : AxiosError) (w : World) :
  is_unauthorized error = true →
  let w' := world_after (@response_onRejected T error w) in
  pathname w' = "/login" ∧
  navigations w' =
    if String.eqb (pathname w) "/login" then navigations w
    else "/login" :: navigations w.
Proof.
  unfold response_onRejected, is_unauthorized. intros Hstatus.
  js_run; split; try done.
  all: by apply String.eqb_eq.
Qed.

(** ** [api.post] *)

(** A request changes nothing but the list of requests before its reply is
    handled. *)
Lemma api_post_run (T : Type) (url : string) (data : list (string * string))
    (reply : Reply T) (w : World) :
  ∃ config,
    api_post url data reply w =
    let w' := world_after (network_send config w) in
    match reply with
    | Resolved body => (Normal body, w')
    | Rejected error => response_onRejected error w'
    end.
Proof.
  unfold api_post, request_interceptor, response_onFulfilled.
  destruct (truthy_string (localStorage w !! "token")) eqn:Htoken.
  - eexists. js_unfold. cbn. rewrite Htoken. cbn. by destruct reply.
  - eexists. js_unfold. cbn. rewrite Htoken. cbn. by destruct reply.
Qed.

Lemma api_post_rejected_rejects (T : Type) url data (error : AxiosError) (w : World) :
  completion (@api_post T url data (Rejected error) w) = Throw (AxiosErr error).
Proof.
  destruct (api_post_run T url data (Rejected error) w) as [config ->].
  apply response_onRejected_rejects.
Qed.

Lemma api_post_rejected_auth (T : Type) url data (error : AxiosError) (w : World) :
  auth (world_after (@api_post T url data (Rejected error) w)) = auth w.
Proof.
  destruct (api_post_run T url data (Rejected error) w) as [config ->].
  cbv zeta. by rewrite response_onRejected_auth.
Qed.

Lemma api_post_rejected_storage (T : Type) url data (error : AxiosError) (w : World) :
  localStorage (world_after (@api_post T url data (Rejected error) w)) =
  if is_unauthorized error then without_session (localStorage w)
  else localStorage w.
Proof.
  destruct (api_post_run T url data (Rejected error) w) as [config ->].
  cbv zeta. by rewrite response_onRejected_storage.
Qed.

Lemma api_post_rejected_location (T : Type) url data (error : AxiosError) (w : World) :
  is_unauthorized error = true →
  let w' := world_after (@api_post T url data (Rejected error) w) in
  pathname w' = "/login" ∧
  navigations w' =
    if String.eqb (pathname w) "/login" then navigations w
    else "/login" :: navigations w.
Proof.
  intros Hstatus.
  destruct (api_post_run T url data (Rejected error) w) as [config ->].
  cbv zeta.
  by destruct (response_onRejected_location T error
                 (world_after (network_send config w)) Hstatus).
Qed.

Lemma api_post_resolved (T : Type) url data (body : T) (w : World) :
  let r := api_post url data (Resolved body) w in
  completion r = Normal body ∧
  auth (world_after r) = auth w ∧
  localStorage (world_after r) = localStorage w ∧
  pathname (world_after r) = pathname w.
Proof.
  destruct (api_post_run T url data (Resolved body) w) as [config Hrun].
  cbv zeta. rewrite Hrun. done.
Qed.

(** ** The provider *)

Section Provider.
Context `{Runtime}.

(** *** [checkAuth], path by path *)

(** No truthy pair in the cache: the [if] is skipped and only [finally]
    runs. *)
Lemma checkAuth_skipped (w : World) :
  truthy_string (localStorage w !! "token")
    && truthy_string (localStorage w !! "user") = false →
  checkAuth w =
  (Normal tt,
   mkWorld (mkAuthState (user (auth w)) (token (auth w)) false)
           (localStorage w) (pathname w) (navigations w) (sent w) (console w)).
Proof.
  intros Hpair. unfold checkAuth. js_unfold. cbn. by rewrite Hpair.
Qed.

(** A truthy pair whose user text parses. *)
Lemma checkAuth_restored (w : World) (parsedUser : JSValue) :
  truthy_string (localStorage w !! "token")
    && truthy_string (localStorage w !! "user") = true →
  JSON_parse (default "null" (localStorage w !! "user")) = Some parsedUser →
  checkAuth w =
  (Normal tt,
   mkWorld (mkAuthState parsedUser (localStorage w !! "token") false)
           (localStorage w) (pathname w) (navigations w) (sent w) (console w)).
Proof.
  intros Hpair Hparse. unfold checkAuth, JSON_parse_call. js_unfold. cbn.
  rewrite Hpair. cbn. by rewrite Hparse.
Qed.

(** A truthy pair whose user text does not parse: [setToken] has run when
    [JSON.parse] throws, and the handler only empties the cache. *)
Lemma checkAuth_recovered (w : World) :
  truthy_string (localStorage w !! "token")
    && truthy_string (localStorage w !! "user") = true →
  JSON_parse (default "null" (localStorage w !! "user")) = None →
  checkAuth w =
  (Normal tt,
   mkWorld (mkAuthState (user (auth w)) (localStorage w !! "token") false)
           (without_session (localStorage w)) (pathname w) (navigations w)
           (sent w) ("Error checking auth:" :: console w)).
Proof.
  intros Hpair Hparse. unfold checkAuth, JSON_parse_call. js_unfold. cbn.
  rewrite Hpair. cbn. by rewrite Hparse.
Qed.

Lemma checkAuth_completes (w : World) : completion (checkAuth w) = Normal tt.
Proof.
  destruct (truthy_string (localStorage w !! "token")
            && truthy_string (localStorage w !! "user")) eqn:Hpair.
  - destruct (JSON_parse (default "null" (localStorage w !! "user")))
      as [parsedUser|] eqn:Hparse.
    + by rewrite (checkAuth_restored w parsedUser).
    + by rewrite checkAuth_recovered.
  - by rewrite checkAuth_skipped.
Qed.

Lemma checkAuth_loading (w : World) :
  loading (auth (world_after (checkAuth w))) = false.
Proof.
  destruct (truthy_string (localStorage w !! "token")
            && truthy_string (localStorage w !! "user")) eqn:Hpair.
  - destruct (JSON_parse (default "null" (localStorage w !! "user")))
      as [parsedUser|] eqn:Hparse.
    + by rewrite (checkAuth_restored w parsedUser).
    + by rewrite checkAuth_recovered.
  - by rewrite checkAuth_skipped.
Qed.

(** *** [login] and [logout] as equations *)

Lemma api_post_rejected_settles (T : Type) url data (error : AxiosError) (w : World) :
  @api_post T url data (Rejected error) w =
  (Throw (AxiosErr error), world_after (@api_post T url data (Rejected error) w)).
Proof.
  rewrite (run_pair (api_post url data (Rejected error) w)) at 1.
  by rewrite api_post_rejected_rejects.
Qed.

Lemma login_rejected_run (username password : string) (error : AxiosError)
    (w : World) :
  login username password (Rejected error) w =
  (Normal (mkLoginResult false
             (Some (or_string (response_data_error (AxiosErr error))
                      login_failed))),
   world_after
     (console_error "Login error:"
        (world_after
           (api_post (T := LoginResponse) "/api/auth/login/"
              [("username", username); ("password", password)]
              (Rejected error) w)))).
Proof.
  unfold login.
  erewrite try_catch_throw;
    [|by erewrite bind_throw; [|apply api_post_rejected_settles]].
  by js_unfold.
Qed.

Lemma login_rejected_auth (username password : string) (error : AxiosError)
    (w : World) :
  auth (world_after (login username password (Rejected error) w)) = auth w.
Proof.
  rewrite login_rejected_run.
  unfold console_error, world_after at 1. cbn.
  apply api_post_rejected_auth.
Qed.

Lemma login_rejected_storage (username password : string) (error : AxiosError)
    (w : World) :
  localStorage (world_after (login username password (Rejected error) w)) =
  if is_unauthorized error then without_session (localStorage w)
  else localStorage w.
Proof.
  rewrite login_rejected_run.
  unfold console_error, world_after at 1. cbn.
  apply api_post_rejected_storage.
Qed.

Lemma login_resolved_run (username password : string) (body : LoginResponse)
    (w : World) :
  ∃ requests,
    login username password (Resolved body) w =
    (Normal (mkLoginResult true None),
     mkWorld
       (mkAuthState (User_value (response_user body))
                    (Some (response_token body)) (loading (auth w)))
       (<["user" := JSON_stringify (response_user body)]>
          (<["token" := response_token body]> (localStorage w)))
       (pathname w) (navigations w) requests (console w)).
Proof.
  destruct (api_post_run LoginResponse "/api/auth/login/"
              [("username", username); ("password", password)]
              (Resolved body) w) as [config Hrun].
  exists (config :: sent w). unfold login.
  erewrite try_catch_normal; [done|].
  erewrite bind_normal; [|exact Hrun].
  by js_unfold.
Qed.

Lemma logout_run (reply : Reply unit) (w : World) :
  ∃ requests lines path visited,
    logout reply w =
    (Normal tt,
     mkWorld (mkAuthState JNull None (loading (auth w)))
             (without_session (localStorage w)) path visited requests lines).
Proof.
  unfold logout. destruct reply as [body|error].
  - destruct (api_post_run unit "/api/auth/logout/" [] (Resolved body) w)
      as [config Hrun].
    erewrite try_catch_finally_normal; [|exact Hrun].
    destruct body. js_unfold. cbn. by repeat eexists.
  - erewrite try_catch_finally_throw; [|apply api_post_rejected_settles].
    pose proof (api_post_rejected_storage unit "/api/auth/logout/" [] error w)
      as Hstorage.
    pose proof (api_post_rejected_auth unit "/api/auth/logout/" [] error w)
      as Hauth.
    destruct (api_post _ _ _ w) as [c w1].
    js_unfold. cbn in *. rewrite Hstorage, Hauth.
    fold (without_session
            (if is_unauthorized error then without_session (localStorage w)
             else localStorage w)).
    destruct (is_unauthorized error);
      [rewrite without_session_idemp|]; by repeat eexists.
Qed.

End Provider.

(** ** The claims about the session *)

Section Session.
Context `{Runtime}.

(** The general shape of the run behind C1: with a non-empty token and a
    non-empty user text that [JSON.parse] rejects, the page mounts with the
    token set and no user. *)
Lemma checkAuth_unparsable_user (storage : gmap string string) (path : string)
    (storedToken storedUser : string) :
  storage !! "token" = Some storedToken → storedToken ≠ "" →
  storage !! "user" = Some storedUser → storedUser ≠ "" →
  JSON_parse storedUser = None →
  auth (world_after (checkAuth (initial storage path))) =
  mkAuthState JNull (Some storedToken) false.
Proof.
  intros Htoken Hnonempty Huser Hnonempty' Hparse.
  rewrite checkAuth_recovered; cbn; rewrite ?Htoken, ?Huser; cbn; try done.
  apply String.eqb_neq in Hnonempty, Hnonempty'.
  by rewrite Hnonempty, Hnonempty'.
Qed.

(** C2 (amended): when the token key is missing, or the user key is missing,
    or the stored user text does not parse, [checkAuth] on a freshly
    mounted page completes without raising, sets [loading] to [false] and
    leaves [isAuthenticated] false.  It removes both cache entries only
    when both stored values are non-empty (so that [JSON.parse] ran and
    threw); in every other such case the cache is left exactly as it
    was. *)
Theorem checkAuth_without_session (storage : gmap string string) (path : string) :
  (storage !! "token" = None ∨ storage !! "user" = None ∨
   ∃ text, storage !! "user" = Some text ∧ JSON_parse text = None) →
  let r := checkAuth (initial storage path) in
  completion r = Normal tt ∧
  loading (auth (world_after r)) = false ∧
  isAuthenticated (auth (world_after r)) = false ∧
  localStorage (world_after r) =
    if truthy_string (storage !! "token") && truthy_string (storage !! "user")
    then without_session storage else storage.
Proof.
  intros Hcase. cbv zeta.
  destruct (truthy_string (storage !! "token")
            && truthy_string (storage !! "user")) eqn:Hpair.
  - apply andb_true_iff in Hpair as [Htoken Huser].
    apply truthy_string_Some in Htoken as (storedToken & Htoken & ?).
    apply truthy_string_Some in Huser as (storedUser & Huser & ?).
    destruct Hcase as [Hnone|[Hnone|(text & Htext & Hparse)]];
      [congruence..|].
    assert (text = storedUser) as -> by congruence.
    rewrite checkAuth_recovered; cbn; rewrite ?Htoken, ?Huser; cbn.
    + by rewrite isAuthenticated_without_user.
    + apply andb_true_iff; split; apply negb_true_iff; by apply String.eqb_neq.
    + done.
  - by rewrite checkAuth_skipped.
Qed.

(** C3 (amended): a call to [login] that the network rejects, whatever the
    error, resolves to a [{success: false, error}] value without raising
    and leaves the provider's state as it was.  The cache is left as it
    was too, unless the rejection carries an HTTP 401 response: then the
    response interceptor has removed the token and user entries. *)
Theorem login_failure (username password : string) (error : AxiosError)
    (w : World) :
  let r := login username password (Rejected error) w in
  (∃ text, completion r = Normal (mkLoginResult false (Some text))) ∧
  auth (world_after r) = auth w ∧
  localStorage (world_after r) =
    if is_unauthorized error then without_session (localStorage w)
    else localStorage w.
Proof.
  cbv zeta. split; [|split].
  - rewrite login_rejected_run. by eexists.
  - apply login_rejected_auth.
  - apply login_rejected_storage.
Qed.

(** C4: [login("testuser", "wrong")] rejected with a response whose body
    carries the message [Invalid credentials] (under [error], the key of
    [ApiError]) resolves to [{success: false, error: "Invalid credentials"}];
    in general the result carries the message of the response body when
    there is a non-empty one, and the fixed text
    [Login failed. Please try again.] in every other case. *)
Theorem login_error_message :
  (∀ (code : Z) (fields : list (string * (string + list string)))
     (sent_out : bool) (note : string) (w : World),
     completion
       (login "testuser" "wrong"
          (Rejected
             (mkAxiosError
                (Some (mkErrorResponse code
                         (Some (mkApiError (Some "Invalid credentials") fields))))
                sent_out note)) w) =
     Normal (mkLoginResult false (Some "Invalid credentials"))) ∧
  (∀ (username password : string) (err : AxiosError) (w : World),
     completion (login username password (Rejected err) w) =
     Normal (mkLoginResult false (Some
       match response err with
       | Some answer =>
           match data answer with
           | Some body =>
               match api_error body with
               | Some text => if String.eqb text "" then login_failed else text
               | None => login_failed
               end
           | None => login_failed
           end
       | None => login_failed
       end))).
Proof.
  split.
  - intros. by rewrite login_rejected_run.
  - intros. rewrite login_rejected_run. cbn.
    destruct (response err) as [answer|]; [|done].
    destruct (data answer) as [body|]; [|done].
    destruct (api_error body) as [text|]; [|done].
    unfold or_string. cbn. by destruct (String.eqb text "").
Qed.

(** C5 (amended): a call to [login] that the network resolves with
    [{token, user}] writes the token and the serialized user to the cache,
    sets the provider's token and user to the values received and resolves
    to [{success: true}]; [isAuthenticated] is true afterwards exactly when
    the token received is not the empty string. *)
Theorem login_success (username password : string) (body : LoginResponse)
    (w : World) :
  let r := login username password (Resolved body) w in
  completion r = Normal (mkLoginResult true None) ∧
  localStorage (world_after r) !! "token" = Some (response_token body) ∧
  localStorage (world_after r) !! "user"
    = Some (JSON_stringify (response_user body)) ∧
  token (auth (world_after r)) = Some (response_token body) ∧
  user (auth (world_after r)) = User_value (response_user body) ∧
  isAuthenticated (auth (world_after r))
    = negb (String.eqb (response_token body) "").
Proof.
  cbv zeta.
  destruct (login_resolved_run username password body w) as [requests ->].
  cbn. rewrite lookup_insert_eq, lookup_insert_ne, lookup_insert_eq by done.
  unfold isAuthenticated. cbn. by rewrite andb_true_r.
Qed.

(** C6: every call to [logout], whether the request to the server is
    resolved or rejected, completes without raising, with the provider's
    token and user cleared ([isAuthenticated] false) and with the token and
    user entries removed from the cache, the rest of the cache
    untouched. *)
Theorem logout_always_clears (reply : Reply unit) (w : World) :
  let r := logout reply w in
  completion r = Normal tt ∧
  token (auth (world_after r)) = None ∧
  user (auth (world_after r)) = JNull ∧
  isAuthenticated (auth (world_after r)) = false ∧
  localStorage (world_after r) !! "token" = None ∧
  localStorage (world_after r) !! "user" = None ∧
  localStorage (world_after r) = without_session (localStorage w).
Proof.
  cbv zeta.
  destruct (logout_run reply w) as (requests & lines & path & visited & ->).
  cbn. by rewrite without_session_token, without_session_user.
Qed.

(** *** [loading] over the life of the page *)

Lemma perform_loading (a : Action) (w : World) :
  loading (auth (perform a w)) = loading (auth w).
Proof.
  destruct a as [username password [body|error]|reply]; cbn [perform].
  - by destruct (login_resolved_run username password body w) as [requests ->].
  - by rewrite login_rejected_auth.
  - by destruct (logout_run reply w)
      as (requests & lines & path & visited & ->).
Qed.

Lemma snapshots_loading (actions : list Action) (w : World) :
  map (λ w', loading (auth w')) (snapshots w actions) =
  replicate (length actions) (loading (auth w)).
Proof.
  revert w. induction actions as [|a rest IH]; intros w; [done|].
  cbn. by rewrite IH, perform_loading.
Qed.

Lemma changes_replicate (n : nat) (b : bool) : changes (replicate n b) = 0%nat.
Proof.
  induction n as [|n IH]; [done|].
  destruct n as [|n]; [done|].
  cbn in *. by rewrite IH, eqb_reflx.
Qed.

(** C7: over the life of a page, whatever the cache held at start-up and
    whatever logins and logouts follow, [loading] is [true] at the first
    render, [false] once [checkAuth] has run and [false] at every later
    snapshot: it changes exactly once. *)
Theorem loading_settles_once (storage : gmap string string) (path : string)
    (actions : list Action) :
  let trace := map (λ w, loading (auth w)) (lifetime storage path actions) in
  trace = true :: replicate (S (length actions)) false ∧
  changes trace = 1%nat.
Proof.
  cbv zeta. unfold lifetime.
  assert (map (λ w, loading (auth w))
            (initial storage path
               :: world_after (checkAuth (initial storage path))
               :: snapshots (world_after (checkAuth (initial storage path)))
                    actions)
          = true :: replicate (S (length actions)) false) as ->.
  { cbn [map replicate]. by rewrite snapshots_loading, checkAuth_loading. }
  split; [done|].
  change (changes (true :: replicate (S (length actions)) false))
    with (1 + changes (replicate (S (length actions)) false))%nat.
  by rewrite changes_replicate.
Qed.

(** C10: when a request is answered with HTTP status 401, the response
    interceptor removes the token and user entries from the cache and
    sends the browser to [/login] unless it is there already, and then
    rejects with the same error; so [api.post] does, for every URL, and
    [login] itself ends with both entries removed. *)
Theorem unauthorized_clears_cache (T : Type) (error : AxiosError)
    (answer : AxiosErrorResponse) (w : World) :
  response error = Some answer → status answer = 401 →
  (let r := @response_onRejected T error w in
   completion r = Throw (AxiosErr error) ∧
   localStorage (world_after r) !! "token" = None ∧
   localStorage (world_after r) !! "user" = None ∧
   localStorage (world_after r) = without_session (localStorage w) ∧
   pathname (world_after r) = "/login" ∧
   navigations (world_after r) =
     if String.eqb (pathname w) "/login" then navigations w
     else "/login" :: navigations w) ∧
  (∀ url data,
     let r := @api_post T url data (Rejected error) w in
     completion r = Throw (AxiosErr error) ∧
     localStorage (world_after r) = without_session (localStorage w) ∧
     pathname (world_after r) = "/login") ∧
  (∀ username password,
     let r := login username password (Rejected error) w in
     localStorage (world_after r) !! "token" = None ∧
     localStorage (world_after r) !! "user" = None ∧
     localStorage (world_after r) = without_session (localStorage w)).
Proof.
  intros Hanswer Hstatus.
  assert (is_unauthorized error = true) as Hunauthorized.
  { unfold is_unauthorized. rewrite Hanswer, Hstatus. done. }
  split; [|split].
  - cbv zeta. repeat split.
    + apply response_onRejected_rejects.
    + rewrite response_onRejected_storage, Hunauthorized.
      apply without_session_token.
    + rewrite response_onRejected_storage, Hunauthorized.
      apply without_session_user.
    + by rewrite response_onRejected_storage, Hunauthorized.
    + by destruct (response_onRejected_location T error w Hunauthorized).
    + by destruct (response_onRejected_location T error w Hunauthorized).
  - intros target body. cbv zeta. repeat split.
    + apply api_post_rejected_rejects.
    + by rewrite api_post_rejected_storage, Hunauthorized.
    + by destruct (api_post_rejected_location T target body error w
                     Hunauthorized).
  - intros username password. cbv zeta. repeat split.
    + rewrite login_rejected_storage, Hunauthorized.
      apply without_session_token.
    + rewrite login_rejected_storage, Hunauthorized.
      apply without_session_user.
    + by rewrite login_rejected_storage, Hunauthorized.
Qed.

End Session.

(** ** Further properties of the session *)

Section Lifecycle.
Context `{Runtime}.

(** X1: a cached pair of a non-empty token and a user text that parses to
    a truthy value is restored: the page mounts authenticated, with [loading]
    false and the cache as it was. *)
Theorem checkAuth_restores_session (storage : gmap string string) (path : string)
    (storedToken storedUser : string) (parsedUser : JSValue) :
  storage !! "token" = Some storedToken → storedToken ≠ "" →
  storage !! "user" = Some storedUser → storedUser ≠ "" →
  JSON_parse storedUser = Some parsedUser → truthy parsedUser = true →
  let r := checkAuth (initial storage path) in
  completion r = Normal tt ∧
  auth (world_after r) = mkAuthState parsedUser (Some storedToken) false ∧
  isAuthenticated (auth (world_after r)) = true ∧
  localStorage (world_after r) = storage.
Proof.
  intros Htoken Hnonempty Huser Hnonempty' Hparse Htruthy. cbv zeta.
  apply String.eqb_neq in Hnonempty, Hnonempty'.
  rewrite (checkAuth_restored _ parsedUser);
    cbn; rewrite ?Htoken, ?Huser; cbn; rewrite ?Hnonempty, ?Hnonempty'; try done.
  unfold isAuthenticated. cbn. by rewrite Hnonempty, Htruthy.
Qed.

(** X2: a second [logout] changes neither the provider's state nor the
    cache, and does not raise. *)
Theorem logout_idempotent (first second : Reply unit) (w : World) :
  let once := world_after (logout first w) in
  let twice := logout second once in
  completion twice = Normal tt ∧
  auth (world_after twice) = auth once ∧
  localStorage (world_after twice) = localStorage once.
Proof.
  cbv zeta.
  destruct (logout_run first w) as (requests & lines & path & visited & ->).
  cbn [world_after snd].
  destruct (logout_run second
              (mkWorld (mkAuthState JNull None (loading (auth w)))
                       (without_session (localStorage w))
                       path visited requests lines))
    as (requests' & lines' & path' & visited' & ->).
  cbn. by rewrite without_session_idemp.
Qed.

Lemma checkAuth_user_needs_token (storage : gmap string string) (path : string) :
  user_needs_token (auth (world_after (checkAuth (initial storage path)))).
Proof.
  unfold user_needs_token.
  destruct (truthy_string (storage !! "token")
            && truthy_string (storage !! "user")) eqn:Hpair.
  - pose proof Hpair as Hboth.
    apply andb_true_iff in Hboth as [Htoken _].
    apply truthy_string_Some in Htoken as (storedToken & Htoken & _).
    destruct (JSON_parse (default "null" (storage !! "user")))
      as [parsedUser|] eqn:Hparse.
    + rewrite (checkAuth_restored _ parsedUser) by done. cbn.
      by rewrite Htoken.
    + by rewrite checkAuth_recovered.
  - by rewrite checkAuth_skipped.
Qed.

Lemma perform_user_needs_token (a : Action) (w : World) :
  user_needs_token (auth w) → user_needs_token (auth (perform a w)).
Proof.
  unfold user_needs_token.
  destruct a as [username password [body|error]|reply]; cbn [perform].
  - by destruct (login_resolved_run username password body w) as [requests ->].
  - by rewrite login_rejected_auth.
  - by destruct (logout_run reply w)
      as (requests & lines & path & visited & ->).
Qed.

Lemma snapshots_user_needs_token (actions : list Action) (w : World) :
  user_needs_token (auth w) →
  Forall (λ w', user_needs_token (auth w')) (snapshots w actions).
Proof.
  revert w. induction actions as [|a rest IH]; intros w Hw; cbn.
  - constructor.
  - constructor; [|apply IH]; by apply perform_user_needs_token.
Qed.

(** X3: one half of the invariant survives every operation: at every
    snapshot of every lifetime, a user that is set comes with a token that
    is set. *)
Theorem lifetime_user_needs_token (storage : gmap string string) (path : string)
    (actions : list Action) :
  Forall (λ w, user (auth w) ≠ JNull → token (auth w) ≠ None)
         (lifetime storage path actions).
Proof.
  unfold lifetime. constructor; [done|].
  constructor; [apply checkAuth_user_needs_token|].
  apply snapshots_user_needs_token, checkAuth_user_needs_token.
Qed.

(** X4: [checkAuth] is idempotent on worlds, so a mount effect that runs
    twice (as under [React.StrictMode] in development) leaves the page as
    one run does. *)
Theorem checkAuth_idempotent (w : World) :
  world_after (checkAuth (world_after (checkAuth w))) =
  world_after (checkAuth w).
Proof.
  destruct (truthy_string (localStorage w !! "token")
            && truthy_string (localStorage w !! "user")) eqn:Hpair.
  - destruct (JSON_parse (default "null" (localStorage w !! "user")))
      as [parsedUser|] eqn:Hparse.
    + rewrite (checkAuth_restored w parsedUser) by done. cbn [world_after snd].
      by rewrite (checkAuth_restored _ parsedUser).
    + rewrite (checkAuth_recovered w) by done. cbn [world_after snd].
      rewrite checkAuth_skipped; [done|].
      cbn. by rewrite without_session_token.
  - rewrite (checkAuth_skipped w) by done. cbn [world_after snd].
    by rewrite checkAuth_skipped.
Qed.

(** The text that axios itself puts on an error is not what [login]
    reports: without a response body the fixed text is used. *)
Remark login_ignores_axios_message (username password note : string)
    (sent_out : bool) (w : World) :
  completion
    (login username password (Rejected (mkAxiosError None sent_out note)) w) =
  Normal (mkLoginResult false (Some login_failed)).
Proof. by rewrite login_rejected_run. Qed.

End Lifecycle.

(** ** The route guard *)

Section Guard.
Context {C : Type}.

(** C8: while [loading] is true the guard renders the placeholder and
    nothing else, whatever [isAuthenticated] says: neither a redirect nor
    the protected children, and the history is left alone. *)
Theorem PrivateRoute_while_loading (ctx : AuthContextType.t) (children : C)
    (history : list string) :
  AuthContextType.loading ctx = true →
  PrivateRoute (Some ctx) children = inr CheckingAuthentication ∧
  (∀ to replace, PrivateRoute (Some ctx) children ≠ inr (Navigate to replace)) ∧
  PrivateRoute (Some ctx) children ≠ inr (Fragment children) ∧
  (∀ e, PrivateRoute (Some ctx) children = inr e → commit e history = history).
Proof.
  intros Hloading. unfold PrivateRoute. cbn. rewrite Hloading.
  repeat split; try done.
  intros e [= <-]. done.
Qed.

(** C9: once [loading] is false, a context that is not authenticated makes
    the guard render [<Navigate to="/login" replace />]; committed on a
    history whose current entry is the gated path, it overwrites that
    entry: the history keeps its length and the gated entry is gone from
    the top. *)
Theorem PrivateRoute_unauthenticated (ctx : AuthContextType.t) (children : C)
    (gated : string) (earlier : list string) :
  AuthContextType.loading ctx = false →
  AuthContextType.isAuthenticated ctx = false →
  PrivateRoute (Some ctx) children = inr (Navigate "/login" true) ∧
  (∀ e, PrivateRoute (Some ctx) children = inr e →
        commit e (gated :: earlier) = "/login" :: earlier ∧
        length (commit e (gated :: earlier)) = length (gated :: earlier)).
Proof.
  intros Hloading Hauth. unfold PrivateRoute. cbn. rewrite Hloading, Hauth.
  split; [done|]. intros e [= <-]. done.
Qed.

End Guard.

(** ** Closed runs *)

(** The engine on the texts of the examples. *)
Example engine_parses_testuser :
  JSON.parse (JSON.stringify testuser) = Some (User_value testuser).
Proof. reflexivity. Qed.

Example engine_rejects_bad_text : JSON.parse "{bad" = None.
Proof. reflexivity. Qed.

Example engine_parses_null : JSON.parse "null" = Some JNull.
Proof. reflexivity. Qed.

(** C1: the run that breaks the invariant.  The cache holds the token [abc]
    and the user text [{bad]; [checkAuth] calls [setToken] before
    [JSON.parse] throws and its handler empties the cache without
    resetting the token, so the page mounts with a token and no user. *)
Theorem checkAuth_token_without_user :
  let w := world_after (@checkAuth engine (initial unparsable_cache "/dashboard")) in
  token (auth w) = Some "abc" ∧
  user (auth w) = JNull ∧
  loading (auth w) = false ∧
  isAuthenticated (auth w) = false ∧
  localStorage w = ∅.
Proof. cbv zeta. repeat split; reflexivity. Qed.

(** C2, as stated, fails: with the token key missing and a user entry
    present, [checkAuth] leaves the user entry in the cache. *)
Lemma checkAuth_keeps_orphan_user :
  orphan_user_cache !! "token" = None ∧
  localStorage
    (world_after (@checkAuth engine (initial orphan_user_cache "/dashboard")))
    !! "user" = Some (JSON.stringify testuser).
Proof. split; reflexivity. Qed.

(** The amended C2 at the cache [{token: abc, user: {bad}]. *)
Lemma checkAuth_without_session_witness :
  (∃ text, unparsable_cache !! "user" = Some text ∧ JSON.parse text = None) ∧
  let r := @checkAuth engine (initial unparsable_cache "/dashboard") in
  completion r = Normal tt ∧
  loading (auth (world_after r)) = false ∧
  isAuthenticated (auth (world_after r)) = false ∧
  localStorage (world_after r) = without_session unparsable_cache.
Proof.
  assert (∃ text, unparsable_cache !! "user" = Some text
                  ∧ JSON.parse text = None) as Hcase.
  { exists "{bad". split; reflexivity. }
  split; [exact Hcase|].
  exact (@checkAuth_without_session engine unparsable_cache "/dashboard"
           (or_intror (or_intror Hcase))).
Defined.

(** C3, as stated, fails: a login refused with status 401 on a page whose
    cache still holds a token removes that token from the cache. *)
Lemma login_unauthorized_mutates_cache :
  localStorage stale_login_page !! "token" = Some "stale" ∧
  localStorage
    (world_after
       (@login engine "testuser" "wrong" (Rejected invalid_credentials)
          stale_login_page))
    !! "token" = None.
Proof. split; reflexivity. Qed.

(** C5, as stated, fails: a login resolved with an empty token succeeds and
    leaves [isAuthenticated] false. *)
Lemma login_empty_token_unauthenticated :
  let r := @login engine "testuser" "testpass123"
             (Resolved (mkLoginResponse "" testuser)) login_page in
  completion r = Normal (mkLoginResult true None) ∧
  token (auth (world_after r)) = Some "" ∧
  isAuthenticated (auth (world_after r)) = false.
Proof. cbv zeta. repeat split; reflexivity. Qed.

(** C8 at a context that is loading and already authenticated. *)
Lemma PrivateRoute_while_loading_witness :
  let ctx := AuthContextType.mk (User_value testuser) (Some "abc") true true in
  AuthContextType.loading ctx = true ∧
  PrivateRoute (Some ctx) tt = inr CheckingAuthentication.
Proof.
  cbv zeta. split; [reflexivity|].
  exact (proj1 (PrivateRoute_while_loading
                  (AuthContextType.mk (User_value testuser) (Some "abc") true true)
                  tt ["/dashboard"] eq_refl)).
Defined.

(** C9 at the context of the login page mounted over an empty cache. *)
Lemma PrivateRoute_unauthenticated_witness :
  let ctx := value (auth login_page) in
  AuthContextType.loading ctx = false ∧
  AuthContextType.isAuthenticated ctx = false ∧
  PrivateRoute (Some ctx) tt = inr (Navigate "/login" true).
Proof.
  cbv zeta. split; [reflexivity|]. split; [reflexivity|].
  exact (proj1 (PrivateRoute_unauthenticated (value (auth login_page)) tt
                  "/dashboard" ["/"] eq_refl eq_refl)).
Defined.

(** C10 at a 401 answer received on [/dashboard] with a session cached. *)
Lemma unauthorized_clears_cache_witness :
  response invalid_credentials
    = Some (mkErrorResponse 401
              (Some (mkApiError (Some "Invalid credentials") []))) ∧
  let r := @response_onRejected LoginResponse invalid_credentials dashboard in
  completion r = Throw (AxiosErr invalid_credentials) ∧
  localStorage (world_after r) !! "token" = None ∧
  localStorage (world_after r) !! "user" = None ∧
  localStorage (world_after r) = without_session (localStorage dashboard) ∧
  pathname (world_after r) = "/login" ∧
  navigations (world_after r) = ["/login"].
Proof.
  split; [reflexivity|].
  exact (proj1 (@unauthorized_clears_cache engine LoginResponse
                  invalid_credentials
                  (mkErrorResponse 401
                     (Some (mkApiError (Some "Invalid credentials") [])))
                  dashboard eq_refl eq_refl)).
Defined.

(** X1 at the cache that a successful [login] has written. *)
Lemma checkAuth_restores_session_witness :
  let logged_in :=
    world_after
      (@login engine "testuser" "testpass123"
         (Resolved (mkLoginResponse "abc" testuser)) login_page) in
  let r := @checkAuth engine (initial (localStorage logged_in) "/dashboard") in
  completion r = Normal tt ∧
  auth (world_after r) = mkAuthState (User_value testuser) (Some "abc") false ∧
  isAuthenticated (auth (world_after r)) = true ∧
  localStorage (world_after r) = localStorage logged_in.
Proof.
  cbv zeta.
  exact (@checkAuth_restores_session engine
           (localStorage
              (world_after
                 (@login engine "testuser" "testpass123"
                    (Resolved (mkLoginResponse "abc" testuser)) login_page)))
           "/dashboard" "abc" (JSON.stringify testuser) (User_value testuser)
           eq_refl ltac:(done) eq_refl ltac:(done) eq_refl eq_refl).
Defined.

(** * The shared client, beyond the session cache *)

Lemma response_onRejected_sent (T : Type) (error : AxiosError) (w : World) :
  sent (world_after (@response_onRejected T error w)) = sent w.
Proof. unfold response_onRejected. js_run. Qed.

(** [api.post] with the request spelled out. *)
Lemma api_post_unfold (T : Type) (target : string)
    (body : list (string * string)) (reply : Reply T) (w : World) :
  api_post target body reply w =
  let w' :=
    world_after
      (network_send
         (mkRequest target body (Authorization_for (localStorage w))) w) in
  match reply with
  | Resolved answer => (Normal answer, w')
  | Rejected error => response_onRejected error w'
  end.
Proof.
  unfold api_post, request_interceptor, response_onFulfilled, Authorization_for.
  destruct (localStorage w !! "token") as [t|] eqn:Htoken.
  - destruct (String.eqb t "") eqn:Hempty;
      js_unfold; cbn; rewrite Htoken; cbn; rewrite Hempty; cbn;
      by destruct reply.
  - js_unfold. cbn. rewrite Htoken. cbn. by destruct reply.
Qed.

Lemma api_post_sent (T : Type) (target : string) (body : list (string * string))
    (reply : Reply T) (w : World) :
  sent (world_after (api_post target body reply w)) =
  mkRequest target body (Authorization_for (localStorage w)) :: sent w.
Proof.
  rewrite api_post_unfold. cbv zeta. destruct reply as [answer|error]; [done|].
  by rewrite response_onRejected_sent.
Qed.

Lemma response_onRejected_console (T : Type) (error : AxiosError) (w : World) :
  console (world_after (@response_onRejected T error w)) =
  (if is_unauthorized error then [] else interceptor_lines error) ++ console w.
Proof.
  unfold response_onRejected, is_unauthorized, interceptor_lines.
  js_run; lia.
Qed.

Lemma response_onRejected_stays (T : Type) (error : AxiosError) (w : World) :
  is_unauthorized error = false →
  pathname (world_after (@response_onRejected T error w)) = pathname w ∧
  navigations (world_after (@response_onRejected T error w)) = navigations w.
Proof.
  unfold response_onRejected, is_unauthorized. intros Hstatus. js_run.
Qed.

(** X5: every request leaves with its URL and body as given and with the
    [Authorization] header that the cache dictates at that moment,
    whatever the reply turns out to be; a resolved request returns the
    body of the response and changes nothing else in the page. *)
Theorem request_carries_cached_token (T : Type) (target : string)
    (body : list (string * string)) (reply : Reply T) (w : World) :
  let r := api_post target body reply w in
  sent (world_after r) =
    mkRequest target body (Authorization_for (localStorage w)) :: sent w ∧
  (∀ answer, reply = Resolved answer →
     completion r = Normal answer ∧
     auth (world_after r) = auth w ∧
     localStorage (world_after r) = localStorage w ∧
     pathname (world_after r) = pathname w ∧
     navigations (world_after r) = navigations w ∧
     console (world_after r) = console w).
Proof.
  cbv zeta. split; [apply api_post_sent|].
  intros answer ->. by rewrite api_post_unfold.
Qed.

(** X9: an error that is not a 401 answer goes through the response
    interceptor untouched: it is rejected again as it came, the session,
    the cache and the location stay as they were, and the console gets
    one line for a 403, a 404, a 500 or an error without a response, and
    none otherwise.  A 401 answer writes no line. *)
Theorem response_onRejected_passes_on (T : Type) (error : AxiosError) (w : World) :
  let r := @response_onRejected T error w in
  completion r = Throw (AxiosErr error) ∧
  auth (world_after r) = auth w ∧
  sent (world_after r) = sent w ∧
  console (world_after r) =
    (if is_unauthorized error then [] else interceptor_lines error)
    ++ console w ∧
  (length (interceptor_lines error) ≤ 1)%nat ∧
  (is_unauthorized error = false →
     localStorage (world_after r) = localStorage w ∧
     pathname (world_after r) = pathname w ∧
     navigations (world_after r) = navigations w).
Proof.
  cbv zeta. split; [apply response_onRejected_rejects|].
  split; [apply response_onRejected_auth|].
  split; [apply response_onRejected_sent|].
  split; [apply response_onRejected_console|].
  split.
  - unfold interceptor_lines. repeat case_match; cbn; lia.
  - intros Hstatus. split.
    + by rewrite response_onRejected_storage, Hstatus.
    + by apply response_onRejected_stays.
Qed.

Section Client.
Context `{Runtime}.

Lemma login_sent (username password : string) (reply : Reply LoginResponse)
    (w : World) :
  sent (world_after (login username password reply w)) =
  mkRequest "/api/auth/login/" [("username", username); ("password", password)]
            (Authorization_for (localStorage w)) :: sent w.
Proof.
  destruct reply as [body|error].
  - unfold login.
    erewrite try_catch_normal;
      [|erewrite bind_normal;
        [|rewrite api_post_unfold; reflexivity]; by js_unfold].
    done.
  - rewrite login_rejected_run.
    unfold console_error, world_after at 1. cbn.
    apply api_post_sent.
Qed.

Lemma logout_sent (reply : Reply unit) (w : World) :
  sent (world_after (logout reply w)) =
  mkRequest "/api/auth/logout/" [] (Authorization_for (localStorage w)) :: sent w.
Proof.
  unfold logout. destruct reply as [body|error].
  - erewrite try_catch_finally_normal;
      [|rewrite api_post_unfold; reflexivity].
    by js_unfold.
  - erewrite try_catch_finally_throw; [|apply api_post_rejected_settles].
    pose proof (api_post_sent unit "/api/auth/logout/" [] (Rejected error) w)
      as Hsent.
    destruct (api_post _ _ _ w) as [c w1].
    js_unfold. cbn in *. done.
Qed.

Lemma Authorization_without_session (storage : gmap string string) :
  Authorization_for (without_session storage) = None.
Proof. unfold Authorization_for. by rewrite without_session_token. Qed.

(** X6: the token that a resolved [login] receives is the one the next
    request presents, as [Token t]; an empty token is not presented. *)
Theorem login_token_is_presented (username password : string)
    (body : LoginResponse) (w : World)
    (T : Type) (target : string) (data : list (string * string))
    (reply : Reply T) :
  let logged_in := world_after (login username password (Resolved body) w) in
  hd_error (sent (world_after (api_post target data reply logged_in))) =
  Some (mkRequest target data
          (if String.eqb (response_token body) "" then None
           else Some ("Token " +:+ response_token body))).
Proof.
  cbv zeta. rewrite api_post_sent. cbn [hd_error]. do 2 f_equal.
  destruct (login_resolved_run username password body w) as [requests ->].
  unfold Authorization_for. cbn.
  by rewrite lookup_insert_ne, lookup_insert_eq.
Qed.

(** X7: once [logout] has run, whatever the server replied, the next
    request presents no token; the same holds after any request that was
    answered with a 401. *)
Theorem no_token_after_logout_or_401 (w : World)
    (T : Type) (target : string) (data : list (string * string))
    (reply : Reply T) :
  (∀ revoke : Reply unit,
     hd_error (sent (world_after
                       (api_post target data reply
                          (world_after (logout revoke w))))) =
     Some (mkRequest target data None)) ∧
  (∀ (T' : Type) (target' : string) (data' : list (string * string))
     (error : AxiosError),
     is_unauthorized error = true →
     hd_error (sent (world_after
                       (api_post target data reply
                          (world_after
                             (@api_post T' target' data' (Rejected error) w))))) =
     Some (mkRequest target data None)).
Proof.
  split.
  - intros revoke. rewrite api_post_sent. cbn [hd_error]. do 2 f_equal.
    destruct (logout_run revoke w) as (requests & lines & path & visited & ->).
    cbn. apply Authorization_without_session.
  - intros T' target' data' error Hstatus.
    rewrite api_post_sent. cbn [hd_error]. do 2 f_equal.
    rewrite api_post_rejected_storage, Hstatus.
    apply Authorization_without_session.
Qed.

(** X8: the requests of the provider themselves.  [login] posts the
    credentials to [/api/auth/login/] and [logout] posts to
    [/api/auth/logout/], each exactly once and each with the header of the
    cache as it was before the call: [logout] presents the token it is
    about to drop, and [login] presents a stale token when one is
    cached. *)
Theorem provider_requests (w : World) :
  (∀ username password reply,
     sent (world_after (login username password reply w)) =
     mkRequest "/api/auth/login/"
               [("username", username); ("password", password)]
               (Authorization_for (localStorage w)) :: sent w) ∧
  (∀ reply,
     sent (world_after (logout reply w)) =
     mkRequest "/api/auth/logout/" [] (Authorization_for (localStorage w))
       :: sent w) ∧
  (∀ t, localStorage w !! "token" = Some t → t ≠ "" →
        Authorization_for (localStorage w) = Some ("Token " +:+ t)).
Proof.
  split; [|split].
  - intros. apply login_sent.
  - intros. apply logout_sent.
  - intros t Htoken Hnonempty. unfold Authorization_for. rewrite Htoken.
    apply String.eqb_neq in Hnonempty. by rewrite Hnonempty.
Qed.

End Client.

(** * The guard and the routes *)

(** X10: the guard renders its children exactly when it is given a
    context that has finished loading and is authenticated; for the
    context of a provider that means: [loading] false, a non-empty token
    and a truthy user. *)
Theorem PrivateRoute_renders_children_iff (C : Type)
    (context : option AuthContextType.t) (children : C) :
  (PrivateRoute context children = inr (Fragment children) ↔
   ∃ ctx, context = Some ctx ∧ AuthContextType.loading ctx = false ∧
          AuthContextType.isAuthenticated ctx = true) ∧
  (∀ s : AuthState,
     PrivateRoute (Some (value s)) children = inr (Fragment children) ↔
     loading s = false ∧ truthy_string (token s) = true ∧ truthy (user s) = true).
Proof.
  split.
  - unfold PrivateRoute. destruct context as [ctx|]; cbn.
    + destruct (AuthContextType.loading ctx) eqn:Hloading;
        destruct (AuthContextType.isAuthenticated ctx) eqn:Hauth; cbn;
        split; try done; try (intros (ctx' & [= <-] & ? & ?); congruence).
      intros _. by exists ctx.
    + split; [done|]. by intros (ctx & ? & _).
  - intros s. unfold PrivateRoute, value, isAuthenticated. cbn.
    destruct (loading s), (truthy_string (token s)), (truthy (user s)); cbn;
      split; try done; intros (? & ? & ?); done.
Qed.

(** X11: where the application comes to rest.  From every route, within
    two redirects: the progress screen while the context is loading; the
    login page when it is not authenticated; otherwise the page of the
    route, the dashboard standing in for [/login], [/profile], [/] and
    every unknown path.  Outside a provider it fails with the error of
    [useAuth]. *)
Theorem App_settles (route : Route) :
  (∀ ctx : AuthContextType.t,
     settle 2 (Some ctx) route =
     if AuthContextType.loading ctx then ShowsProgress
     else if AuthContextType.isAuthenticated ctx then
       Shows match route with
             | RouteTransactions => Transactions
             | RouteBudget => Budget
             | RouteLogin | RouteDashboard | RouteProfile | RouteRoot
             | RouteOther => Dashboard
             end
     else Shows Login) ∧
  (∀ redirects,
     settle redirects None route =
     Fails (Error "useAuth must be used within AuthProvider")).
Proof.
  split.
  - intros ctx.
    destruct route; cbn; unfold PrivateRoute; cbn;
      destruct (AuthContextType.loading ctx) eqn:Hloading; cbn; try done;
      destruct (AuthContextType.isAuthenticated ctx) eqn:Hauth; cbn;
      rewrite ?Hloading, ?Hauth; cbn; rewrite ?Hloading, ?Hauth; done.
  - intros redirects. by destruct redirects.
Qed.

(** X12: every redirect that [App] renders replaces the current history
    entry and goes to a path of the route table, so rendering [App] never
    lengthens the history; and the placeholder of the guard is never what
    [App] renders, because [App] shows its own progress screen while the
    context is loading. *)
Theorem App_redirects_replace (context : option AuthContextType.t)
    (route : Route) :
  match App context route with
  | inr (Routed (Navigate to replace)) =>
      replace = true ∧ is_Some (route_of_literal to) ∧
      ∀ current past,
        length (commit (C := Page) (Navigate to replace) (current :: past))
        = length (current :: past)
  | inr (Routed CheckingAuthentication) => False
  | inr (Routed (Fragment _)) | inr Authenticating | inl _ => True
  end.
Proof.
  destruct context as [ctx|]; [|done].
  unfold App, PrivateRoute. cbn.
  destruct (AuthContextType.loading ctx) eqn:Hloading; [done|].
  destruct route; cbn; rewrite ?Hloading;
    destruct (AuthContextType.isAuthenticated ctx); cbn; done.
Qed.

(** * The login form and the layout *)

Lemma or_string_nonempty (a : option string) (b : string) :
  b ≠ "" → or_string a b ≠ "".
Proof.
  intros Hb. unfold or_string.
  destruct (truthy_string a) eqn:Ha; [|done].
  by apply truthy_string_Some in Ha as (text & -> & ?).
Qed.

Lemma or_string_id (text fallback : string) :
  text ≠ "" → or_string (Some text) fallback = text.
Proof.
  intros Htext. unfold or_string. cbn.
  apply String.eqb_neq in Htext. by rewrite Htext.
Qed.

Lemma login_failed_nonempty : login_failed ≠ "".
Proof. done. Qed.

Lemma api_post_rejected_stays (T : Type) target data (error : AxiosError)
    (w : World) :
  is_unauthorized error = false →
  pathname (world_after (@api_post T target data (Rejected error) w)) = pathname w.
Proof.
  intros Hstatus. rewrite api_post_unfold. cbv zeta.
  by destruct (response_onRejected_stays T error
                 (world_after
                    (network_send
                       (mkRequest target data
                          (Authorization_for (localStorage w))) w))
                 Hstatus) as [-> _].
Qed.

Section Callers.
Context `{Runtime}.

Lemma logout_pathname (reply : Reply unit) (w : World) :
  pathname (world_after (logout reply w)) =
  match reply with
  | Resolved _ => pathname w
  | Rejected error => if is_unauthorized error then "/login" else pathname w
  end.
Proof.
  unfold logout. destruct reply as [body|error].
  - erewrite try_catch_finally_normal;
      [|rewrite api_post_unfold; reflexivity].
    by js_unfold.
  - erewrite try_catch_finally_throw; [|apply api_post_rejected_settles].
    assert (pathname
              (world_after
                 (api_post (T := unit) "/api/auth/logout/" [] (Rejected error) w))
            = if is_unauthorized error then "/login" else pathname w)
      as Hpath.
    { destruct (is_unauthorized error) eqn:Hstatus.
      - by destruct (api_post_rejected_location unit "/api/auth/logout/" []
                       error w Hstatus).
      - by apply api_post_rejected_stays. }
    destruct (api_post _ _ _ w) as [c w1].
    js_unfold. cbn in *. done.
Qed.

(** The rest of the application under the context of a provider. *)
Lemma settle_provider (a : AuthState) (route : Route) :
  loading a = false →
  settle 2 (Some (value a)) route =
  if isAuthenticated a then
    Shows match route with
          | RouteTransactions => Transactions
          | RouteBudget => Budget
          | RouteLogin | RouteDashboard | RouteProfile | RouteRoot
          | RouteOther => Dashboard
          end
  else Shows Login.
Proof.
  intros Hloading.
  destruct route; cbn; unfold PrivateRoute; cbn; rewrite ?Hloading; cbn;
    destruct (isAuthenticated a) eqn:Hauth; cbn;
    rewrite ?Hloading, ?Hauth; cbn; rewrite ?Hloading, ?Hauth; done.
Qed.

Lemma reload_without_token (w : World) :
  localStorage w !! "token" = None →
  reload w =
  mkWorld (mkAuthState JNull None false) (localStorage w) (pathname w) [] [] [].
Proof.
  intros Htoken. unfold reload.
  rewrite checkAuth_skipped; [done|]. cbn. by rewrite Htoken.
Qed.

Lemma login_rejected_stays (username password : string) (err : AxiosError)
    (w : World) :
  is_unauthorized err = false →
  pathname (world_after (login username password (Rejected err) w)) = pathname w.
Proof.
  intros Hstatus. rewrite login_rejected_run.
  unfold console_error, world_after at 1. cbn.
  by apply api_post_rejected_stays.
Qed.

(** X13: submitting the login form always ends with the button released
    and exactly one toast: the welcome for a resolved login, and for a
    rejected one the message of the response body or the fixed text, never
    an empty one.  A resolved login replaces the current history entry
    with [/dashboard]; a rejected one that is not a 401 answer leaves the
    browser where it was.  Apart from that the window is exactly as
    [login] left it, so the [catch] block of the handler, which would
    write to the console, never runs. *)
Theorem handleSubmit_outcome (values : LoginPage.LoginFormValues)
    (reply : Reply LoginResponse) (s : LoginPage.State) :
  let s' := LoginPage.handleSubmit values reply s in
  let after_login :=
    world_after (login (LoginPage.username values) (LoginPage.password values)
                   reply (window (LoginPage.browser s))) in
  LoginPage.loading s' = false ∧
  match reply with
  | Resolved _ =>
      toasts (LoginPage.browser s') =
        message_success "Login successful! Welcome back."
          :: toasts (LoginPage.browser s) ∧
      window (LoginPage.browser s') = with_pathname "/dashboard" after_login ∧
      entries (LoginPage.browser s') =
        "/dashboard" :: earlier (LoginPage.browser s)
  | Rejected err =>
      let text := or_string (response_data_error (AxiosErr err)) login_failed in
      toasts (LoginPage.browser s') =
        message_error text :: toasts (LoginPage.browser s) ∧
      text ≠ "" ∧
      window (LoginPage.browser s') = after_login ∧
      (is_unauthorized err = false →
       entries (LoginPage.browser s') = entries (LoginPage.browser s))
  end.
Proof.
  cbv zeta.
  unfold LoginPage.handleSubmit, LoginPage.setLoading, LoginPage.on_browser,
    entries.
  cbn [LoginPage.browser LoginPage.loading window with_window earlier toasts].
  destruct reply as [body|err].
  - destruct (login_resolved_run (LoginPage.username values)
                (LoginPage.password values) body (window (LoginPage.browser s)))
      as [requests ->].
    done.
  - pose proof (login_rejected_stays (LoginPage.username values)
                  (LoginPage.password values) err
                  (window (LoginPage.browser s))) as Hstays.
    rewrite login_rejected_run in Hstays |- *.
    cbn [completion world_after fst snd success error] in Hstays |- *.
    rewrite or_string_id by (apply or_string_nonempty, login_failed_nonempty).
    cbn [LoginPage.browser LoginPage.loading window with_window earlier toasts
         show].
    repeat split.
    + apply or_string_nonempty, login_failed_nonempty.
    + intros Hstatus. f_equal. by apply Hstays.
Qed.

(** X14: after a resolved login the form has sent the browser to
    [/dashboard]; there the application shows the dashboard when the token
    received is non-empty, and bounces back to the login page, right after
    the welcome toast, when it is empty. *)
Theorem handleSubmit_then_dashboard (values : LoginPage.LoginFormValues)
    (body : LoginResponse) (s : LoginPage.State) :
  loading (auth (window (LoginPage.browser s))) = false →
  let s' := LoginPage.handleSubmit values (Resolved body) s in
  route_of_literal (pathname (window (LoginPage.browser s')))
    = Some RouteDashboard ∧
  settle 2 (Some (value (auth (window (LoginPage.browser s'))))) RouteDashboard =
    if String.eqb (response_token body) "" then Shows Login
    else Shows Dashboard.
Proof.
  intros Hloading. cbv zeta.
  unfold LoginPage.handleSubmit, LoginPage.setLoading, LoginPage.on_browser.
  cbn [LoginPage.browser LoginPage.loading window with_window earlier toasts].
  destruct (login_resolved_run (LoginPage.username values)
              (LoginPage.password values) body (window (LoginPage.browser s)))
    as [requests ->].
  cbn [completion world_after fst snd success navigate show window
       with_pathname auth pathname].
  split; [done|].
  rewrite settle_provider by done.
  unfold isAuthenticated. cbn. rewrite andb_true_r.
  by destruct (String.eqb (response_token body) "").
Qed.

(** X15: the logout entry of the layout never raises, whatever the server
    replies: the session and both cache entries are cleared, no toast is
    shown, and the browser ends on [/login].  Unless the revoke request was
    answered with a 401, the path the user was on is pushed behind it, so
    it stays reachable with the back button. *)
Theorem handleLogout_outcome (reply : Reply unit) (b : Browser) :
  let r := handleLogout reply b in
  fst r = Normal tt ∧
  auth (window (snd r)) = mkAuthState JNull None (loading (auth (window b))) ∧
  localStorage (window (snd r)) = without_session (localStorage (window b)) ∧
  pathname (window (snd r)) = "/login" ∧
  toasts (snd r) = toasts b ∧
  match reply with
  | Resolved _ => entries (snd r) = "/login" :: entries b
  | Rejected err =>
      is_unauthorized err = false → entries (snd r) = "/login" :: entries b
  end.
Proof.
  cbv zeta. unfold handleLogout, entries.
  pose proof (logout_pathname reply (window b)) as Hpath.
  destruct (logout_run reply (window b))
    as (requests & lines & path & visited & Hrun).
  rewrite Hrun in Hpath |- *. cbn in Hpath. subst path.
  destruct reply as [body|err]; cbn; [done|].
  repeat split. by intros ->.
Qed.

(** X16: after the logout entry has run on a mounted page, the
    application shows the login page from every route: going back to the
    page the user came from leads to the login page again. *)
Theorem handleLogout_then_login_everywhere (reply : Reply unit) (b : Browser)
    (route : Route) :
  loading (auth (window b)) = false →
  settle 2 (Some (value (auth (window (snd (handleLogout reply b)))))) route
  = Shows Login.
Proof.
  intros Hloading. unfold handleLogout.
  destruct (logout_run reply (window b))
    as (requests & lines & path & visited & ->).
  cbn [completion world_after fst snd navigate with_window window
       with_pathname auth].
  by rewrite settle_provider.
Qed.

(** X17: a 401 answer ends the session for good.  Once the interceptor has
    handled it, the next page load, whatever the user text in the cache
    was, mounts on [/login] with no token and no user over a cache without
    the two entries, and shows the login page from every route. *)
Theorem unauthorized_then_reload (T : Type) (target : string)
    (data : list (string * string)) (err : AxiosError) (w : World) :
  is_unauthorized err = true →
  let w' := reload (world_after (@api_post T target data (Rejected err) w)) in
  auth w' = mkAuthState JNull None false ∧
  localStorage w' = without_session (localStorage w) ∧
  pathname w' = "/login" ∧
  ∀ route, settle 2 (Some (value (auth w'))) route = Shows Login.
Proof.
  intros Hstatus. cbv zeta.
  pose proof (api_post_rejected_storage T target data err w) as Hstorage.
  rewrite Hstatus in Hstorage.
  destruct (api_post_rejected_location T target data err w Hstatus)
    as [Hpath _].
  rewrite reload_without_token
    by (rewrite Hstorage; apply without_session_token).
  cbn [auth localStorage pathname]. rewrite Hstorage, Hpath.
  repeat split.
  intros route. by rewrite settle_provider.
Qed.

(** X18: a page load after [logout] mounts with no token and no user,
    whatever the server replied to the revoke request. *)
Theorem logout_then_reload (reply : Reply unit) (w : World) :
  let w' := reload (world_after (logout reply w)) in
  auth w' = mkAuthState JNull None false ∧
  localStorage w' = without_session (localStorage w).
Proof.
  cbv zeta.
  destruct (logout_run reply w) as (requests & lines & path & visited & ->).
  rewrite reload_without_token by apply without_session_token.
  done.
Qed.

(** X19: a session survives a page load.  When the token received is
    non-empty and the runtime reads back what it wrote for the user (a
    non-empty text that parses to a truthy value), the page load after a
    resolved [login] mounts with that token and the parsed user, and is
    authenticated. *)
Theorem login_then_reload (username password : string) (body : LoginResponse)
    (parsedUser : JSValue) (w : World) :
  response_token body ≠ "" →
  JSON_stringify (response_user body) ≠ "" →
  JSON_parse (JSON_stringify (response_user body)) = Some parsedUser →
  truthy parsedUser = true →
  let w' := reload (world_after (login username password (Resolved body) w)) in
  auth w' = mkAuthState parsedUser (Some (response_token body)) false ∧
  isAuthenticated (auth w') = true ∧
  localStorage w' = localStorage (world_after (login username password (Resolved body) w)).
Proof.
  intros Htoken Htext Hparse Htruthy. cbv zeta.
  destruct (login_resolved_run username password body w) as [requests ->].
  unfold reload. cbn [world_after snd localStorage pathname].
  apply String.eqb_neq in Htoken, Htext.
  rewrite (checkAuth_restored _ parsedUser); cbn;
    rewrite ?lookup_insert_eq, ?lookup_insert_ne, ?lookup_insert_eq by done;
    cbn; rewrite ?Htoken, ?Htext; try done.
  unfold isAuthenticated. cbn. by rewrite Htoken, Htruthy.
Qed.

End Callers.

(** The browser agrees with the guard's history: [navigate] acts on the
    entries as a committed [Navigate] does. *)
Lemma navigate_entries (to : string) (replace : bool) (b : Browser) :
  entries (navigate to replace b)
  = commit (C := Page) (Navigate to replace) (entries b).
Proof. unfold entries, navigate. cbn. by destruct replace. Qed.

(** ** Closed runs of the callers *)

(** X14 at the login form, for the test user and the token [abc]. *)
Lemma handleSubmit_then_dashboard_witness :
  let s' := @LoginPage.handleSubmit engine
              (LoginPage.mkValues "testuser" "testpass123")
              (Resolved (mkLoginResponse "abc" testuser)) login_form in
  loading (auth (window (LoginPage.browser login_form))) = false ∧
  route_of_literal (pathname (window (LoginPage.browser s')))
    = Some RouteDashboard ∧
  settle 2 (Some (value (auth (window (LoginPage.browser s'))))) RouteDashboard
    = Shows Dashboard.
Proof.
  cbv zeta. split; [reflexivity|].
  exact (@handleSubmit_then_dashboard engine
           (LoginPage.mkValues "testuser" "testpass123")
           (mkLoginResponse "abc" testuser) login_form eq_refl).
Defined.

(** X16 on the dashboard, going back to [/dashboard] after the logout. *)
Lemma handleLogout_then_login_everywhere_witness :
  loading (auth (window (mkBrowser dashboard ["/"] []))) = false ∧
  settle 2
    (Some (value (auth (window
       (snd (@handleLogout engine (Resolved tt) (mkBrowser dashboard ["/"] [])))))))
    RouteDashboard
  = Shows Login.
Proof.
  split; [reflexivity|].
  exact (@handleLogout_then_login_everywhere engine (Resolved tt)
           (mkBrowser dashboard ["/"] []) RouteDashboard eq_refl).
Defined.

(** X17 for a 401 answer received on the dashboard. *)
Lemma unauthorized_then_reload_witness :
  is_unauthorized invalid_credentials = true ∧
  let w' :=
    @reload engine
      (world_after
         (@api_post unit "/api/transactions/summary/" []
            (Rejected invalid_credentials) dashboard)) in
  auth w' = mkAuthState JNull None false ∧
  localStorage w' = without_session (localStorage dashboard) ∧
  pathname w' = "/login" ∧
  ∀ route, settle 2 (Some (value (auth w'))) route = Shows Login.
Proof.
  split; [reflexivity|].
  exact (@unauthorized_then_reload engine unit "/api/transactions/summary/" []
           invalid_credentials dashboard eq_refl).
Defined.

(** X19 with the engine, for the test user and the token [abc]. *)
Lemma login_then_reload_witness :
  JSON.parse (JSON.stringify testuser) = Some (User_value testuser) ∧
  let logged_in :=
    world_after
      (@login engine "testuser" "testpass123"
         (Resolved (mkLoginResponse "abc" testuser)) login_page) in
  auth (@reload engine logged_in)
    = mkAuthState (User_value testuser) (Some "abc") false ∧
  isAuthenticated (auth (@reload engine logged_in)) = true ∧
  localStorage (@reload engine logged_in) = localStorage logged_in.
Proof.
  split; [reflexivity|].
  exact (@login_then_reload engine "testuser" "testpass123"
           (mkLoginResponse "abc" testuser) (User_value testuser) login_page
           ltac:(done) ltac:(done) eq_refl eq_refl).
Defined.
